(** * Custom Scenarios page: prompt rendering, provider adapters and dispatch

    A shallow embedding of [pages/2_Custom_Scenarios.py].  The page is a
    Streamlit script: it reads [os.environ] and [st.session_state], renders a
    two-message prompt from the selected ATT&CK techniques, hands it to one of
    five LLM client libraries and writes the outcome back to the screen and
    to the session state.

    Effects are threaded through a state-and-exception monad over [World].
    The client libraries are parameters of the development. *)

From Stdlib Require Import String Ascii List NArith Lia.
From stdpp Require Import base gmap strings list sorting.
Import ListNotations.
Open Scope string_scope.
Open Scope list_scope.

(** ** Python values, exceptions *)

(** The values the page keeps in [st.session_state]. *)
Inductive PyVal :=
| PNone
| PBool (b : bool)
| PStr (s : string)
| PList (l : list string).

(** Python truthiness, as used by [not x] and [if x]. *)
Definition truthy (v : PyVal) : bool :=
  match v with
  | PNone => false
  | PBool b => b
  | PStr s => negb (String.eqb s "")
  | PList l => match l with [] => false | _ => true end
  end.

(** Truthiness of a [str]. *)
Definition str_truthy (s : string) : bool := negb (String.eqb s "").

(** The exceptions that occur; all of them derive from [Exception]. *)
Inductive Exc :=
| KeyError (key : string)
| NameError (name : string)
| ValueError (msg : string)
| IndexError (msg : string)
| BackendError (msg : string).

(** [str(e)]. *)
Definition str_exc (e : Exc) : string :=
  match e with
  | KeyError k => "'" +:+ k +:+ "'"
  | NameError n => "name '" +:+ n +:+ "' is not defined"
  | ValueError m => m
  | IndexError m => m
  | BackendError m => m
  end.

(** ** Messages and backend data *)

(** A message object, seen through the three attributes the page tests with
    [hasattr]. *)
Record Message := {
  role : option string;
  type_ : option string;
  content : option string;
}.

(** [SystemMessage(content=c)] and [HumanMessage(content=c)] of langchain:
    they carry [type] and [content] and have no [role]. *)
Definition SystemMessage (c : string) : Message :=
  {| role := None; type_ := Some "system"; content := Some c |}.
Definition HumanMessage (c : string) : Message :=
  {| role := None; type_ := Some "human"; content := Some c |}.

(** An entry of the list sent to Azure: [{"role": r, "content": c}]. *)
Record WireMessage := { wire_role : string; wire_content : string }.

Record Generation := { text : string }.
Record LLMResult := { generations : list (list Generation) }.
Record ChatCompletionMessage := { message_content : string }.
Record Choice := { message : ChatCompletionMessage }.
Record ChatCompletion := { choices : list Choice }.
Record AIMessage := { ai_content : string }.

(** The client objects: each offers the one method the page calls. *)
Record OpenAIChat := { openai_generate : list (list Message) → Exc + LLMResult }.
Record AzureClient := {
  chat_completions_create : option string → list WireMessage → Exc + ChatCompletion }.
Record GoogleChat := { google_invoke : list Message → Exc + AIMessage }.
Record MistralChat := { mistral_invoke : list Message → option string → Exc + AIMessage }.
Record OllamaLLM := { ollama_invoke : list Message → option string → Exc + string }.

(** A call issued to a backend, with its arguments. *)
Inductive Request :=
| ReqOpenAI (messages : list (list Message))
| ReqAzure (model : option string) (messages : list WireMessage)
| ReqGoogle (messages : list Message)
| ReqMistral (messages : list Message) (model : option string)
| ReqOllama (messages : list Message) (model : option string).

(** ** LangSmith runs *)

Record UUID := { uuid_int : N }.
Record RunTree := { run_tree_id : UUID }.
Record Client := { client_api_key : string }.

Definition hex_digit (d : N) : ascii :=
  match String.get (N.to_nat d) "0123456789abcdef" with
  | Some c => c
  | None => "0"%char
  end.

(** The [n] low hexadecimal digits of [v], most significant first: for a
    128-bit [v] and [n = 32] this is ['%032x' % v]. *)
Fixpoint hex_of (n : nat) (v : N) : string :=
  match n with
  | O => ""
  | S n' => hex_of n' (N.div v 16) +:+ String (hex_digit (N.modulo v 16)) ""
  end.

(** [str(u)] for a [uuid.UUID]: the 8-4-4-4-12 form. *)
Definition str_uuid (u : UUID) : string :=
  let hex := hex_of 32 (uuid_int u) in
  substring 0 8 hex +:+ "-" +:+ substring 8 4 hex +:+ "-" +:+
  substring 12 4 hex +:+ "-" +:+ substring 16 4 hex +:+ "-" +:+
  substring 20 12 hex.

(** ** The world a run of the page acts on *)

Inductive UIEvent :=
| UiStatus (label : string)
| UiWrite (body : string)
| UiError (body : string)
| UiInfo (body : string)
| UiMarkdown (body : PyVal)
| UiDownload (label : string) (data : PyVal) (file_name mime : string).

Record World := {
  environ : gmap string string;
  session_state : gmap string PyVal;
  screen : list UIEvent;
  requests : list Request;
}.

(** A statement: it may raise, and it leaves a world behind either way. *)
Definition M (A : Type) : Type := World → (Exc + A) * World.

#[global] Instance M_ret : MRet M := λ A x w, (inr x, w).
#[global] Instance M_bind : MBind M := λ A B f m w,
  match m w with
  | (inr x, w') => f x w'
  | (inl e, w') => (inl e, w')
  end.

Definition raise {A} (e : Exc) : M A := λ w, (inl e, w).

(** [try: body except Exception as e: handler e]. *)
Definition try_except {A} (body : M A) (handler : Exc → M A) : M A := λ w,
  match body w with
  | (inl e, w') => handler e w'
  | (inr x, w') => (inr x, w')
  end.

(** An outcome computed by a library call. *)
Definition lift {A} (r : Exc + A) : M A := λ w, (r, w).

Definition emit (ev : UIEvent) : M unit := λ w,
  (inr tt, {| environ := environ w; session_state := session_state w;
              screen := screen w ++ [ev]; requests := requests w |}).

Definition st_status (label : string) : M unit := emit (UiStatus label).
Definition st_write (body : string) : M unit := emit (UiWrite body).
Definition st_error (body : string) : M unit := emit (UiError body).
Definition st_info (body : string) : M unit := emit (UiInfo body).
Definition st_markdown (body : PyVal) : M unit := emit (UiMarkdown body).
Definition st_download_button (label : string) (data : PyVal) (file_name mime : string)
  : M unit := emit (UiDownload label data file_name mime).

(** [st.session_state[k] = v]. *)
Definition session_set (k : string) (v : PyVal) : M unit := λ w,
  (inr tt, {| environ := environ w; session_state := <[k := v]> (session_state w);
              screen := screen w; requests := requests w |}).

(** [st.session_state[k]]. *)
Definition session_item (k : string) : M PyVal := λ w,
  match session_state w !! k with
  | Some v => (inr v, w)
  | None => (inl (KeyError k), w)
  end.

(** [st.session_state.get(k)]. *)
Definition session_get (k : string) : M PyVal := λ w,
  (inr (default PNone (session_state w !! k)), w).

(** [k in st.session_state]. *)
Definition session_has (k : string) : M bool := λ w,
  (inr (bool_decide (is_Some (session_state w !! k))), w).

(** [os.environ[k]]. *)
Definition environ_item (k : string) : M string := λ w,
  match environ w !! k with
  | Some v => (inr v, w)
  | None => (inl (KeyError k), w)
  end.

(** [os.getenv(k)]. *)
Definition getenv (k : string) : M (option string) := λ w, (inr (environ w !! k), w).

(** A method call on a client object: the request is issued, then the
    library's outcome is returned or raised. *)
Definition backend {A} (req : Request) (outcome : Exc + A) : M A := λ w,
  (outcome, {| environ := environ w; session_state := session_state w;
               screen := screen w; requests := requests w ++ [req] |}).

(** ** The module namespace *)

(** A row of [techniques_df]. *)
Record TechniqueRow := {
  technique_id : string;
  technique_name : string;
  external_id : string;
  display_name : string;
}.

(** The module-level names the functions of the page read.  [messages] is
    [None] while the name is unbound. *)
Record Globals := {
  client : option Client;
  model_provider : string;
  industry : string;
  company_size : string;
  techniques_df : list TechniqueRow;
  selected_template : string;
  selected_techniques : list string;
  messages : option (list Message);
}.

(** Reading the module-level name [messages]. *)
Definition global_messages (G : Globals) : M (list Message) :=
  match messages G with
  | Some ms => mret ms
  | None => raise (NameError "messages")
  end.

(** [if role == 'human': role = 'user']. *)
Definition human_to_user (r : string) : string :=
  if String.eqb r "human" then "user" else r.

(** ** Incident response templates *)

(** The dictionary of presets, in its insertion order. *)
Definition incident_response_templates : list (string * list string) :=
  [ ("Phishing Attack",
     [ "Spearphishing Attachment (T1193)"; "User Execution (T1204)";
       "Browser Extensions (T1176)"; "Credentials from Password Stores (T1555)";
       "Input Capture (T1056)"; "Exfiltration Over C2 Channel (T1041)" ]);
    ("Ransomware Attack",
     [ "Exploit Public-Facing Application (T1190)";
       "Windows Management Instrumentation (T1047)"; "Create Account (T1136)";
       "Process Injection (T1055)"; "Data Encrypted for Impact (T1486)" ]);
    ("Malware Infection",
     [ "Supply Chain Compromise (T1195)"; "Command and Scripting Interpreter (T1059)";
       "Registry Run Keys / Startup Folder (T1060)";
       "Obfuscated Files or Information (T1027)"; "Remote Services (T1021)";
       "Data Destruction (T1485)" ]);
    ("Insider Threat",
     [ "Valid Accounts (T1078)"; "Account Manipulation (T1098)";
       "Exploitation for Privilege Escalation (T1068)"; "Data Staged (T1074)";
       "Scheduled Transfer (T1029)"; "Account Access Removal (T1531)" ]);
    ("Fuzzy Kola Attack",
     [ "System Information Discovery (T1082)";
       "Account Discovery (T1087)";
       "Network Configuration Discovery (T1016)";
       "Network Share Discovery (T1135)";
       "Compromise Infrastructure (T1584)";
       "Spearphishing Attachment (T1566.001)";
       "User Execution (T1204.002)";
       "PowerShell (T1059.001)";
       "Windows Command Shell (T1059.003)";
       "Regsvr32 (T1218.010)";
       "Rundll32 (T1218.011)";
       "Registry Run Keys / Startup Folder (T1547.001)";
       "Accessibility Features (T1546.008)";
       "Exploitation for Privilege Escalation (T1068)";
       "Obfuscated Files or Information (T1027)";
       "File Deletion (T1070.004)";
       "Indirect Command Execution (T1202)";
       "LSASS Memory (T1003.001)";
       "File and Directory Discovery (T1083)";
       "System Service Discovery (T1007)";
       "SMB/Windows Admin Shares (T1021.002)";
       "Keylogging (T1056.001)";
       "DNS (T1071.004)";
       "Domain Generation Algorithms (T1568.002)";
       "Protocol Tunneling (T1572)";
       "Exfiltration Over C2 Channel (T1041)";
       "Inhibit System Recovery (T1490)" ]) ].

(** [d[k]] on a dictionary kept as an association list; [None] when
    [k not in d]. *)
Fixpoint dict_get {V} (k : string) (d : list (string * V)) : option V :=
  match d with
  | [] => None
  | (k', v) :: d' => if String.eqb k k' then Some v else dict_get k d'
  end.

(** [df['Display Name']]: a frame built from no rows has no columns. *)
Definition column_display_name (df : list TechniqueRow) : Exc + list string :=
  match df with
  | [] => inl (KeyError "Display Name")
  | _ => inr (display_name <$> df)
  end.

(** The rows of [df] kept by the mask [df['Display Name'].isin(values)]. *)
Definition rows_isin (values : list string) (df : list TechniqueRow) : list TechniqueRow :=
  filter (λ row, display_name row ∈ values) df.

Definition template_selection (techniques_df : list TechniqueRow) (template : string)
  : M unit :=
  match dict_get template incident_response_templates with
  | Some template_techniques =>
      names ← lift (column_display_name techniques_df);
      let filtered_techniques := rows_isin template_techniques techniques_df in
      let selected_techniques := display_name <$> filtered_techniques in
      session_set "selected_techniques" (PList selected_techniques)
  | None => mret tt
  end.

(** ** Prompt construction *)

Definition nl : string := String "010"%char "".

(** A parsed format string: literal text and [{name}] replacement fields. *)
Inductive Piece :=
| Lit (s : string)
| Field (name : string).

(** One pass over the format string.  [field] is the name being read when
    the scan is inside braces, [lit] the literal text read since the last
    field.  The templates of the page use neither doubled braces nor
    conversions, and those are not parsed. *)
Fixpoint parse_template (t : string) (field : option string) (lit : string)
  : Exc + list Piece :=
  match t with
  | EmptyString =>
      match field with
      | None => inr [Lit lit]
      | Some _ => inl (ValueError "expected '}' before end of string")
      end
  | String c t' =>
      match field with
      | None =>
          if Ascii.eqb c "{" then
            match parse_template t' (Some "") "" with
            | inr pieces => inr (Lit lit :: pieces)
            | inl e => inl e
            end
          else if Ascii.eqb c "}" then
            inl (ValueError "Single '}' encountered in format string")
          else parse_template t' None (lit +:+ String c "")
      | Some name =>
          if Ascii.eqb c "}" then
            match parse_template t' None "" with
            | inr pieces => inr (Field name :: pieces)
            | inl e => inl e
            end
          else parse_template t' (Some (name +:+ String c "")) lit
      end
  end.

(** Substitution of the keyword arguments, each value used as it is. *)
Fixpoint substitute (pieces : list Piece) (kwargs : list (string * string))
  : Exc + string :=
  match pieces with
  | [] => inr ""
  | Lit s :: rest =>
      match substitute rest kwargs with
      | inr out => inr (s +:+ out)
      | inl e => inl e
      end
  | Field name :: rest =>
      match dict_get name kwargs with
      | Some v =>
          match substitute rest kwargs with
          | inr out => inr (v +:+ out)
          | inl e => inl e
          end
      | None => inl (KeyError name)
      end
  end.

(** [str.format] with keyword arguments only. *)
Definition format_template (t : string) (kwargs : list (string * string)) : Exc + string :=
  match parse_template t None "" with
  | inr pieces => substitute pieces kwargs
  | inl e => inl e
  end.

Definition system_template : string :=
  "You are a cybersecurity expert. Your task is to produce a comprehensive incident response testing scenario based on the information provided.".

Definition human_template : string :=
  nl +:+
  "**Background information:**" +:+ nl +:+
  "The company operates in the '{industry}' industry and is of size '{company_size}'." +:+ nl +:+
  nl +:+
  "**Threat actor information:**" +:+ nl +:+
  "{template_info}" +:+ nl +:+
  "The threat actor is known to use the following ATT&CK techniques:" +:+ nl +:+
  "{selected_techniques_string}" +:+ nl +:+
  nl +:+
  "**Your task:**" +:+ nl +:+
  "Create a custom incident response testing scenario based on the information provided. The goal of the scenario is to test the company's incident response capabilities against a threat actor group that uses the identified ATT&CK techniques. " +:+ nl +:+
  nl +:+
  "Your response should be well structured and formatted using Markdown." +:+ nl.

(** [ChatPromptTemplate.from_messages([system, human]).format_prompt(...).to_messages()]. *)
Definition format_prompt (kwargs : list (string * string)) : Exc + list Message :=
  match format_template system_template kwargs with
  | inr system_text =>
      match format_template human_template kwargs with
      | inr user_text => inr [SystemMessage system_text; HumanMessage user_text]
      | inl e => inl e
      end
  | inl e => inl e
  end.

(** [f"This is a '{selected_template}' scenario." if selected_template else ""]. *)
Definition template_info_of (selected_template : string) : string :=
  if str_truthy selected_template
  then "This is a '" +:+ selected_template +:+ "' scenario."
  else "".

(** The guarded block that builds the prompt.  The result is the
    module-level binding of [messages] after the block: [None] when no
    assignment was reached. *)
Definition build_messages
    (selected_techniques : list string) (selected_template industry company_size : string)
  : M (option (list Message)) :=
  try_except
    (if Nat.ltb 0 (List.length selected_techniques) then
       let selected_techniques_string := String.concat nl selected_techniques in
       let template_info := template_info_of selected_template in
       messages ← lift (format_prompt
                          [ ("selected_techniques_string", selected_techniques_string);
                            ("industry", industry);
                            ("company_size", company_size);
                            ("template_info", template_info) ]);
       mret (Some messages)
     else mret None)
    (λ e, st_error ("An error occurred: " +:+ str_exc e);; mret None).

(** ** Provider adapters *)

Section Libraries.

(** The imported client libraries, and [str] on message objects. *)
Variable ChatOpenAI : PyVal → PyVal → Exc + OpenAIChat.
Variable AzureOpenAI : option string → option string → option string → Exc + AzureClient.
Variable ChatGoogleGenerativeAI : option string → option string → Exc + GoogleChat.
Variable ChatMistralAI : option string → Exc + MistralChat.
Variable Ollama : option string → Exc + OllamaLLM.
Variable str_message : Message → string.

(** The run that [@traceable] opens around a call and passes to the
    function as [run_tree]. *)
Variable run_tree : RunTree.

Section Namespace.

Variable G : Globals.

(** *** Primary cloud (OpenAI) *)

Definition generate_scenario_traced
    (openai_api_key model_name : PyVal) (messages : list Message) (run_tree : RunTree)
  : M (option LLMResult) :=
  model_name ← session_item "model_name";
  try_except
    (st_status "Generating scenario...";;
     st_write "Initialising AI model.";;
     llm ← lift (ChatOpenAI openai_api_key model_name);
     st_write "Model initialised. Generating scenario, please wait.";;
     response ← backend (ReqOpenAI [messages]) (openai_generate llm [messages]);
     st_write "Scenario generated successfully.";;
     session_set "run_id" (PStr (str_uuid (run_tree_id run_tree)));;
     mret (Some response))
    (λ e,
     st_error ("An error occurred while generating the scenario: " +:+ str_exc e);;
     session_set "run_id" (PStr (str_uuid (run_tree_id run_tree)));;
     mret None).

Definition generate_scenario
    (openai_api_key model_name : PyVal) (messages : list Message)
  : M (option LLMResult) :=
  model_name ← session_item "model_name";
  try_except
    (st_status "Generating scenario...";;
     st_write "Initialising AI model.";;
     llm ← lift (ChatOpenAI openai_api_key model_name);
     st_write "Model initialised. Generating scenario, please wait.";;
     response ← backend (ReqOpenAI [messages]) (openai_generate llm [messages]);
     st_write "Scenario generated successfully.";;
     mret (Some response))
    (λ e,
     st_error ("An error occurred while generating the scenario: " +:+ str_exc e);;
     mret None).

Definition generate_scenario_wrapper
    (openai_api_key model_name : PyVal) (messages : list Message)
  : M (option LLMResult) :=
  match client G with
  | Some _ => generate_scenario_traced openai_api_key model_name messages run_tree
  | None => generate_scenario openai_api_key model_name messages
  end.

(** *** Enterprise cloud (Azure OpenAI) *)

(** The loop that converts message objects to the expected format;
    [formatted] is the list built so far. *)
Fixpoint format_messages (messages : list Message) (formatted : list WireMessage)
  : Exc + list WireMessage :=
  match messages with
  | [] => inr formatted
  | message :: rest =>
      match role message, content message with
      | Some r, Some c =>
          format_messages rest
            (formatted ++ [{| wire_role := human_to_user r; wire_content := c |}])
      | _, _ =>
          match type_ message, content message with
          | Some t, Some c =>
              format_messages rest
                (formatted ++ [{| wire_role := human_to_user t; wire_content := c |}])
          | _, _ =>
              inl (ValueError ("Unsupported message format: " +:+ str_message message))
          end
      end
  end.

Definition generate_scenario_azure_traced (messages : list Message) (run_tree : RunTree)
  : M (option ChatCompletion) :=
  try_except
    (azure_api_key ← getenv "AZURE_OPENAI_API_KEY";
     azure_api_endpoint ← getenv "AZURE_OPENAI_ENDPOINT";
     azure_deployment_name ← getenv "AZURE_DEPLOYMENT";
     azure_api_version ← getenv "OPENAI_API_VERSION";
     st_status "Generating scenario...";;
     st_write "Initialising AI model.";;
     llm ← lift (AzureOpenAI azure_api_key azure_api_endpoint azure_api_version);
     st_write "Model initialised. Generating scenario, please wait.";;
     formatted_messages ← lift (format_messages messages []);
     response ← backend (ReqAzure azure_deployment_name formatted_messages)
                  (chat_completions_create llm azure_deployment_name formatted_messages);
     st_write "Scenario generated successfully.";;
     session_set "run_id" (PStr (str_uuid (run_tree_id run_tree)));;
     mret (Some response))
    (λ e,
     st_error ("An error occurred while generating the scenario: " +:+ str_exc e);;
     session_set "run_id" (PStr (str_uuid (run_tree_id run_tree)));;
     mret None).

Definition generate_scenario_azure (messages : list Message)
  : M (option ChatCompletion) :=
  try_except
    (azure_api_key ← getenv "AZURE_OPENAI_API_KEY";
     azure_api_endpoint ← getenv "AZURE_OPENAI_ENDPOINT";
     azure_deployment_name ← getenv "AZURE_DEPLOYMENT";
     azure_api_version ← getenv "OPENAI_API_VERSION";
     st_status "Generating scenario...";;
     st_write "Initialising AI model.";;
     llm ← lift (AzureOpenAI azure_api_key azure_api_endpoint azure_api_version);
     st_write "Model initialised. Generating scenario, please wait.";;
     formatted_messages ← lift (format_messages messages []);
     response ← backend (ReqAzure azure_deployment_name formatted_messages)
                  (chat_completions_create llm azure_deployment_name formatted_messages);
     st_write "Scenario generated successfully.";;
     mret (Some response))
    (λ e,
     st_error ("An error occurred while generating the scenario: " +:+ str_exc e);;
     mret None).

Definition generate_scenario_azure_wrapper (messages : list Message)
  : M (option ChatCompletion) :=
  match client G with
  | Some _ => generate_scenario_azure_traced messages run_tree
  | None => generate_scenario_azure messages
  end.

(** *** Alternate cloud A (Google AI) *)

Definition generate_scenario_google_traced
    (google_api_key : PyVal) (model : option string) (messages : list Message)
    (run_tree : RunTree)
  : M (option AIMessage) :=
  try_except
    (google_api_key ← getenv "GOOGLE_API_KEY";
     model ← getenv "GOOGLE_MODEL";
     st_status "Generating scenario...";;
     st_write "Initialising AI model.";;
     llm ← lift (ChatGoogleGenerativeAI google_api_key model);
     st_write "Model initialised. Generating scenario, please wait.";;
     response ← backend (ReqGoogle messages) (google_invoke llm messages);
     st_write "Scenario generated successfully.";;
     session_set "run_id" (PStr (str_uuid (run_tree_id run_tree)));;
     mret (Some response))
    (λ e,
     st_error ("An error occurred while generating the scenario: " +:+ str_exc e);;
     session_set "run_id" (PStr (str_uuid (run_tree_id run_tree)));;
     mret None).

Definition generate_scenario_google
    (google_api_key : PyVal) (model : option string) (messages : list Message)
  : M (option AIMessage) :=
  try_except
    (google_api_key ← getenv "GOOGLE_API_KEY";
     model ← getenv "GOOGLE_MODEL";
     st_status "Generating scenario...";;
     st_write "Initialising AI model.";;
     llm ← lift (ChatGoogleGenerativeAI google_api_key model);
     st_write "Model initialised. Generating scenario, please wait.";;
     response ← backend (ReqGoogle messages) (google_invoke llm messages);
     st_write "Scenario generated successfully.";;
     mret (Some response))
    (λ e,
     st_error ("An error occurred while generating the scenario: " +:+ str_exc e);;
     mret None).

Definition generate_scenario_google_wrapper
    (google_api_key : PyVal) (model : option string) (messages : list Message)
  : M (option AIMessage) :=
  match client G with
  | Some _ => generate_scenario_google_traced google_api_key model messages run_tree
  | None => generate_scenario_google google_api_key model messages
  end.

(** *** Alternate cloud B (Mistral) *)

Definition generate_scenario_mistral_traced
    (mistral_api_key : PyVal) (model_name : option string) (messages : list Message)
    (run_tree : RunTree)
  : M (option AIMessage) :=
  try_except
    (mistral_api_key ← getenv "MISTRAL_API_KEY";
     model ← getenv "MISTRAL_MODEL";
     st_status "Generating scenario...";;
     st_write "Initialising AI model.";;
     llm ← lift (ChatMistralAI mistral_api_key);
     st_write "Model initialised. Generating scenario, please wait.";;
     response ← backend (ReqMistral messages model) (mistral_invoke llm messages model);
     st_write "Scenario generated successfully.";;
     session_set "run_id" (PStr (str_uuid (run_tree_id run_tree)));;
     mret (Some response))
    (λ e,
     st_error ("An error occurred while generating the scenario: " +:+ str_exc e);;
     session_set "run_id" (PStr (str_uuid (run_tree_id run_tree)));;
     mret None).

Definition generate_scenario_mistral
    (mistral_api_key : PyVal) (model_name : option string) (messages : list Message)
  : M (option AIMessage) :=
  try_except
    (mistral_api_key ← getenv "MISTRAL_API_KEY";
     model ← getenv "MISTRAL_MODEL";
     st_status "Generating scenario...";;
     st_write "Initialising AI model.";;
     llm ← lift (ChatMistralAI mistral_api_key);
     st_write "Model initialised. Generating scenario, please wait.";;
     response ← backend (ReqMistral messages model) (mistral_invoke llm messages model);
     st_write "Scenario generated successfully.";;
     mret (Some response))
    (λ e,
     st_error ("An error occurred while generating the scenario: " +:+ str_exc e);;
     mret None).

Definition generate_scenario_mistral_wrapper
    (mistral_api_key : PyVal) (model_name : option string) (messages : list Message)
  : M (option AIMessage) :=
  match client G with
  | Some _ => generate_scenario_mistral_traced mistral_api_key model_name messages run_tree
  | None => generate_scenario_mistral mistral_api_key model_name messages
  end.

(** *** Local inference (Ollama)

    The function has the single parameter [model]; the name [messages] in
    its body is the module-level one. *)

Definition generate_scenario_ollama_traced (model : option string) (run_tree : RunTree)
  : M (option string) :=
  try_except
    (model ← getenv "OLLAMA_MODEL";
     st_status "Generating scenario...";;
     st_write "Initialising AI model.";;
     llm ← lift (Ollama model);
     st_write "Model initialised. Generating scenario, please wait.";;
     messages ← global_messages G;
     response ← backend (ReqOllama messages model) (ollama_invoke llm messages model);
     st_write "Scenario generated successfully.";;
     session_set "run_id" (PStr (str_uuid (run_tree_id run_tree)));;
     mret (Some response))
    (λ e,
     st_error ("An error occurred while generating the scenario: " +:+ str_exc e);;
     session_set "run_id" (PStr (str_uuid (run_tree_id run_tree)));;
     mret None).

Definition generate_scenario_ollama (model : option string) : M (option string) :=
  try_except
    (model ← getenv "OLLAMA_MODEL";
     st_status "Generating scenario...";;
     st_write "Initialising AI model.";;
     llm ← lift (Ollama model);
     st_write "Model initialised. Generating scenario, please wait.";;
     messages ← global_messages G;
     response ← backend (ReqOllama messages model) (ollama_invoke llm messages model);
     st_write "Scenario generated successfully.";;
     mret (Some response))
    (λ e,
     st_error ("An error occurred while generating the scenario: " +:+ str_exc e);;
     mret None).

Definition generate_scenario_ollama_wrapper (model : option string) : M (option string) :=
  match client G with
  | Some _ => generate_scenario_ollama_traced model run_tree
  | None => generate_scenario_ollama model
  end.

(** *** Dispatch on the model provider

    One function per branch of the provider test; [clicked] is the value
    of the branch's [st.button]. *)

(** ['custom_scenario_text' in st.session_state and
    st.session_state['custom_scenario_generated']]. *)
Definition previous_scenario_generated : M bool :=
  has_text ← session_has "custom_scenario_text";
  if has_text : bool
  then generated ← session_item "custom_scenario_generated"; mret (truthy generated)
  else mret false.

(** The re-display of a scenario generated earlier. *)
Definition show_previous_scenario : M unit :=
  previous ← previous_scenario_generated;
  if previous : bool then
    st_markdown (PStr "---");;
    custom_scenario_text ← session_item "custom_scenario_text";
    st_markdown custom_scenario_text;;
    data ← session_item "custom_scenario_text";
    st_download_button "Download Scenario" data "custom_scenario.md" "text/markdown"
  else mret tt.

(** The bookkeeping after a successful generation, as the Azure, Google,
    Mistral and Ollama branches have it. *)
Definition store_scenario (custom_scenario_text : string) : M unit :=
  session_set "custom_scenario_text" (PStr custom_scenario_text);;
  st_markdown (PStr custom_scenario_text);;
  data ← session_item "custom_scenario_text";
  st_download_button "Download Scenario" data "custom_scenario.md" "text/markdown";;
  session_set "last_scenario" (PBool true);;
  session_set "last_scenario_text" (PStr custom_scenario_text).

(** [xs[0]]. *)
Definition item_0 {A} (xs : list A) : Exc + A :=
  match xs with
  | x :: _ => inr x
  | [] => inl (IndexError "list index out of range")
  end.

Definition dispatch_azure (clicked : bool) : M unit :=
  if clicked then
    azure_api_key ← environ_item "AZURE_OPENAI_API_KEY";
    (if negb (str_truthy azure_api_key)
     then st_info "Please add your Azure OpenAI Service API key to continue."
     else mret tt);;
    azure_api_endpoint ← environ_item "AZURE_OPENAI_ENDPOINT";
    (if negb (str_truthy azure_api_endpoint)
     then st_info "Please add your Azure OpenAI Service API endpoint to continue."
     else mret tt);;
    azure_deployment ← environ_item "AZURE_DEPLOYMENT";
    if negb (str_truthy azure_deployment) then
      st_info "Please add the name of your Azure OpenAI Service Deployment to continue."
    else if negb (str_truthy (industry G)) then
      st_info "Please select your company's industry to continue."
    else if negb (str_truthy (company_size G)) then
      st_info "Please select your company's size to continue."
    else
      messages ← global_messages G;
      response ← generate_scenario_azure_wrapper messages;
      st_markdown (PStr "---");;
      match response with
      | Some response =>
          session_set "custom_scenario_generated" (PBool true);;
          choice ← lift (item_0 (choices response));
          store_scenario (message_content (message choice))
      | None => show_previous_scenario
      end
  else mret tt.

Definition dispatch_google (clicked : bool) : M unit :=
  if clicked then
    google_api_key ← environ_item "GOOGLE_API_KEY";
    (if negb (str_truthy google_api_key)
     then st_info "Please add your Google AI API key to continue."
     else mret tt);;
    google_model ← environ_item "GOOGLE_MODEL";
    if negb (str_truthy google_model) then
      st_info "Please select a model to continue."
    else if negb (str_truthy (industry G)) then
      st_info "Please select your company's industry to continue."
    else if negb (str_truthy (company_size G)) then
      st_info "Please select your company's size to continue."
    else
      google_api_key ← session_get "google_api_key";
      model_name ← getenv "GOOGLE_MODEL";
      messages ← global_messages G;
      response ← generate_scenario_google_wrapper google_api_key model_name messages;
      st_markdown (PStr "---");;
      match response with
      | Some response =>
          session_set "custom_scenario_generated" (PBool true);;
          store_scenario (ai_content response)
      | None => show_previous_scenario
      end
  else mret tt.

Definition dispatch_mistral (clicked : bool) : M unit :=
  if clicked then
    mistral_api_key ← environ_item "MISTRAL_API_KEY";
    (if negb (str_truthy mistral_api_key)
     then st_info "Please add your Mistral API key to continue."
     else mret tt);;
    mistral_model ← environ_item "MISTRAL_MODEL";
    if negb (str_truthy mistral_model) then
      st_info "Please select a model to continue."
    else if negb (str_truthy (industry G)) then
      st_info "Please select your company's industry to continue."
    else if negb (str_truthy (company_size G)) then
      st_info "Please select your company's size to continue."
    else
      mistral_api_key ← session_get "mistral_api_key";
      model_name ← getenv "MISTRAL_MODEL";
      messages ← global_messages G;
      response ← generate_scenario_mistral_wrapper mistral_api_key model_name messages;
      st_markdown (PStr "---");;
      match response with
      | Some response =>
          session_set "custom_scenario_generated" (PBool true);;
          store_scenario (ai_content response)
      | None => show_previous_scenario
      end
  else mret tt.

Definition dispatch_ollama (clicked : bool) : M unit :=
  if clicked then
    ollama_model ← environ_item "OLLAMA_MODEL";
    if negb (str_truthy ollama_model) then
      st_info "Please select a model to continue."
    else if negb (str_truthy (industry G)) then
      st_info "Please select your company's industry to continue."
    else if negb (str_truthy (company_size G)) then
      st_info "Please select your company's size to continue."
    else
      model ← getenv "OLLAMA_MODEL";
      response ← generate_scenario_ollama_wrapper model;
      st_markdown (PStr "---");;
      match response with
      | Some response =>
          session_set "custom_scenario_generated" (PBool true);;
          store_scenario response
      | None => show_previous_scenario
      end
  else mret tt.

(** The default branch.  Its [else] belongs to the button test, and its
    download button takes the text from the local variable. *)
Definition dispatch_openai (clicked : bool) : M unit :=
  if clicked then
    openai_api_key ← session_get "openai_api_key";
    model_name ← session_get "model_name";
    (if negb (truthy openai_api_key)
     then st_info "Please add your OpenAI API key to continue."
     else mret tt);;
    if negb (truthy model_name) then
      st_info "Please select a model to continue."
    else if negb (str_truthy (industry G)) then
      st_info "Please select your company's industry to continue."
    else if negb (str_truthy (company_size G)) then
      st_info "Please select your company's size to continue."
    else
      messages ← global_messages G;
      response ← generate_scenario_wrapper openai_api_key model_name messages;
      st_markdown (PStr "---");;
      match response with
      | Some response =>
          session_set "custom_scenario_generated" (PBool true);;
          candidates ← lift (item_0 (generations response));
          generation ← lift (item_0 candidates);
          let custom_scenario_text := text generation in
          session_set "custom_scenario_text" (PStr custom_scenario_text);;
          st_markdown (PStr custom_scenario_text);;
          st_download_button "Download Scenario" (PStr custom_scenario_text)
            "custom_scenario.md" "text/markdown";;
          session_set "last_scenario" (PBool true);;
          session_set "last_scenario_text" (PStr custom_scenario_text)
      | None => mret tt
      end
  else show_previous_scenario.

(** The generation block of the page: the provider test inside its
    [try], up to the note on logging.  The feedback buttons that follow
    in the same [try] are left out. *)
Definition dispatch (clicked : bool) : M unit :=
  try_except
    ((if String.eqb (model_provider G) "Azure OpenAI Service" then dispatch_azure clicked
      else if String.eqb (model_provider G) "Google AI API" then dispatch_google clicked
      else if String.eqb (model_provider G) "Mistral API" then dispatch_mistral clicked
      else if String.eqb (model_provider G) "Ollama" then dispatch_ollama clicked
      else dispatch_openai clicked);;
     match client G with
     | None =>
         st_info "ℹ️ No LangChain API key has been set. This run will not be logged to LangSmith."
     | Some _ => mret tt
     end)
    (λ e, st_error ("An error occurred: " +:+ str_exc e)).

End Namespace.

(** *** One run of the script

    The inputs are the module-level values read at the top of the script
    and the values the widgets return: [selected_template] from the
    select box, [chosen] from the multi-select, [clicked] from the
    Generate button. *)
Definition page
    (client : option Client) (model_provider industry company_size : string)
    (techniques_df : list TechniqueRow)
    (selected_template : string) (chosen : list string) (clicked : bool)
  : M unit :=
  has_flag ← session_has "custom_scenario_generated";
  (if negb has_flag then session_set "custom_scenario_generated" (PBool false)
   else mret tt);;
  (if str_truthy selected_template
   then template_selection techniques_df selected_template
   else mret tt);;
  let selected_techniques :=
    match techniques_df with [] => [] | _ => chosen end in
  messages ← build_messages selected_techniques selected_template industry company_size;
  dispatch
    {| client := client; model_provider := model_provider; industry := industry;
       company_size := company_size; techniques_df := techniques_df;
       selected_template := selected_template;
       selected_techniques := selected_techniques; messages := messages |}
    clicked.

End Libraries.

(** ** Vocabulary of the statements *)

(** [s.split('\n')]: the lines of a text. *)
Fixpoint split_lines (s : string) : list string :=
  match s with
  | EmptyString => [""]
  | String c s' =>
      if Ascii.eqb c "010" then "" :: split_lines s'
      else match split_lines s' with
           | line :: rest => String c line :: rest
           | [] => [String c ""]
           end
  end.

(** No line break inside [s]. *)
Fixpoint newline_free (s : string) : bool :=
  match s with
  | EmptyString => true
  | String c s' => negb (Ascii.eqb c "010") && newline_free s'
  end.

(** [needle in s]. *)
Definition Substring (needle s : string) : Prop :=
  ∃ before after, s = before +:+ needle +:+ after.

(** The attribute the Azure adapter reads a message's role from, with the
    content next to it: [role] when the object has [role] and [content],
    otherwise [type] when it has [type] and [content]. *)
Definition role_and_content (m : Message) (token body : string) : Prop :=
  (role m = Some token ∧ content m = Some body) ∨
  (role m = None ∧ type_ m = Some token ∧ content m = Some body).

(** A message with neither the role/content nor the type/content shape. *)
Definition unsupported (m : Message) : Prop :=
  ¬ (is_Some (role m) ∧ is_Some (content m)) ∧
  ¬ (is_Some (type_ m) ∧ is_Some (content m)).

(** The text of the error boxes on the screen, oldest first. *)
Definition error_boxes (w : World) : list string :=
  omap (λ ev, match ev with UiError body => Some body | _ => None end) (screen w).

(** The provider adapter's failure banner. *)
Definition generation_failed (e : Exc) : string :=
  "An error occurred while generating the scenario: " +:+ str_exc e.

(** The text of the user message before the template line. *)
Definition user_text_head (industry company_size : string) : string :=
  nl +:+ "**Background information:**" +:+ nl +:+
  "The company operates in the '" +:+ industry +:+ "' industry and is of size '" +:+
  company_size +:+ "'." +:+ nl +:+ nl +:+ "**Threat actor information:**".

Definition techniques_header : string :=
  "The threat actor is known to use the following ATT&CK techniques:".

(** The lines of the user message after the techniques. *)
Definition user_text_tail : list string :=
  [ "";
    "**Your task:**";
    "Create a custom incident response testing scenario based on the information provided. The goal of the scenario is to test the company's incident response capabilities against a threat actor group that uses the identified ATT&CK techniques. ";
    "";
    "Your response should be well structured and formatted using Markdown.";
    "" ].

(** What an adapter invocation leaves in the session state for feedback:
    with tracing on, the run id of the run (a non-empty string) under
    ["run_id"]; with tracing off, the session state as it was. *)
Definition run_id_carried (G : Globals) (run_tree : RunTree) (w w' : World) : Prop :=
  match client G with
  | Some _ =>
      session_state w' !! "run_id" = Some (PStr (str_uuid (run_tree_id run_tree))) ∧
      str_uuid (run_tree_id run_tree) ≠ ""
  | None => session_state w' = session_state w
  end.

(** The backend of an adapter raises [e]: either the client constructor
    does, or the method called on the client does. *)
Definition openai_raises (ChatOpenAI : PyVal → PyVal → Exc + OpenAIChat)
    (openai_api_key : PyVal) (messages : list Message) (w : World) (e : Exc) : Prop :=
  ∃ model_name, session_state w !! "model_name" = Some model_name ∧
    (ChatOpenAI openai_api_key model_name = inl e ∨
     ∃ llm, ChatOpenAI openai_api_key model_name = inr llm ∧
            openai_generate llm [messages] = inl e).

Definition azure_raises
    (AzureOpenAI : option string → option string → option string → Exc + AzureClient)
    (str_message : Message → string)
    (messages : list Message) (w : World) (e : Exc) : Prop :=
  let made := AzureOpenAI (environ w !! "AZURE_OPENAI_API_KEY")
                (environ w !! "AZURE_OPENAI_ENDPOINT") (environ w !! "OPENAI_API_VERSION") in
  made = inl e ∨
  ∃ llm formatted, made = inr llm ∧
    format_messages str_message messages [] = inr formatted ∧
    chat_completions_create llm (environ w !! "AZURE_DEPLOYMENT") formatted = inl e.

Definition google_raises
    (ChatGoogleGenerativeAI : option string → option string → Exc + GoogleChat)
    (messages : list Message) (w : World) (e : Exc) : Prop :=
  let made := ChatGoogleGenerativeAI (environ w !! "GOOGLE_API_KEY")
                (environ w !! "GOOGLE_MODEL") in
  made = inl e ∨ ∃ llm, made = inr llm ∧ google_invoke llm messages = inl e.

Definition mistral_raises (ChatMistralAI : option string → Exc + MistralChat)
    (messages : list Message) (w : World) (e : Exc) : Prop :=
  let made := ChatMistralAI (environ w !! "MISTRAL_API_KEY") in
  made = inl e ∨
  ∃ llm, made = inr llm ∧
         mistral_invoke llm messages (environ w !! "MISTRAL_MODEL") = inl e.

Definition ollama_raises (Ollama : option string → Exc + OllamaLLM)
    (G : Globals) (w : World) (e : Exc) : Prop :=
  let made := Ollama (environ w !! "OLLAMA_MODEL") in
  made = inl e ∨
  ∃ llm ms, made = inr llm ∧ messages G = Some ms ∧
            ollama_invoke llm ms (environ w !! "OLLAMA_MODEL") = inl e.

(** A wire message that renders a message object: the content is carried
    over, the token ["human"] becomes ["user"], any other token stays. *)
Definition wire_of (m : Message) (wm : WireMessage) : Prop :=
  ∃ token body, role_and_content m token body ∧ wire_content wm = body ∧
    (token = "human" → wire_role wm = "user") ∧
    (token ≠ "human" → wire_role wm = token).

(** ** Sample libraries, catalog and worlds *)

Module Sample.

(** A backend that accepts the client and refuses the request. *)
Definition AzureOpenAI (key endpoint version : option string) : Exc + AzureClient :=
  inr {| chat_completions_create := λ _ _, inl (BackendError "Error code: 401") |}.

(** A backend whose requests time out. *)
Definition ChatOpenAI (key model : PyVal) : Exc + OpenAIChat :=
  inr {| openai_generate := λ _, inl (BackendError "Request timed out.") |}.

(** Clients that cannot be constructed. *)
Definition ChatGoogleGenerativeAI (key model : option string) : Exc + GoogleChat :=
  inl (BackendError "API key not valid.").
Definition ChatMistralAI (key : option string) : Exc + MistralChat :=
  inl (BackendError "Unauthorized").

(** A local model that answers. *)
Definition Ollama (model : option string) : Exc + OllamaLLM :=
  inr {| ollama_invoke := λ _ _, inr "# Scenario" |}.

Definition str_message (m : Message) : string :=
  "content=" +:+ default "" (content m).

Definition run_tree : RunTree := {| run_tree_id := {| uuid_int := 255 |} |}.

Definition tracing : option Client := Some {| client_api_key := "ls-key" |}.

(** A catalog that lists Input Capture before User Execution. *)
Definition catalog : list TechniqueRow :=
  [ {| technique_id := "attack-pattern--1"; technique_name := "Input Capture";
       external_id := "T1056"; display_name := "Input Capture (T1056)" |};
    {| technique_id := "attack-pattern--2"; technique_name := "Phishing";
       external_id := "T1566"; display_name := "Phishing (T1566)" |};
    {| technique_id := "attack-pattern--3"; technique_name := "User Execution";
       external_id := "T1204"; display_name := "User Execution (T1204)" |} ].

Definition empty_world : World :=
  {| environ := ∅; session_state := ∅; screen := []; requests := [] |}.

(** Azure configured with an empty API key. *)
Definition azure_without_key : World :=
  {| environ :=
       <["AZURE_OPENAI_API_KEY" := ""]>
         (<["AZURE_OPENAI_ENDPOINT" := "https://example.openai.azure.com"]>
            (<["AZURE_DEPLOYMENT" := "gpt-4"]>
               (<["OPENAI_API_VERSION" := "2023-12-01-preview"]> ∅)));
     session_state := ∅; screen := []; requests := [] |}.

(** Ollama configured with a model. *)
Definition ollama_world : World :=
  {| environ := <["OLLAMA_MODEL" := "llama3"]> ∅;
     session_state := ∅; screen := []; requests := [] |}.

(** A session that holds a scenario generated earlier, with OpenAI and
    Azure both configured. *)
Definition after_success : World :=
  {| environ :=
       <["AZURE_OPENAI_API_KEY" := "key"]>
         (<["AZURE_OPENAI_ENDPOINT" := "https://example.openai.azure.com"]>
            (<["AZURE_DEPLOYMENT" := "gpt-4"]>
               (<["OPENAI_API_VERSION" := "2023-12-01-preview"]> ∅)));
     session_state :=
       <["custom_scenario_generated" := PBool true]>
         (<["custom_scenario_text" := PStr "# Earlier scenario"]>
            (<["openai_api_key" := PStr "sk-test"]>
               (<["model_name" := PStr "gpt-4"]> ∅)));
     screen := []; requests := [] |}.

Definition no_messages : Globals :=
  {| client := None; model_provider := "Ollama"; industry := "Finance";
     company_size := "Large"; techniques_df := catalog;
     selected_template := ""; selected_techniques := []; messages := None |}.

Definition with_messages (ms : list Message) : Globals :=
  {| client := None; model_provider := "Ollama"; industry := "Finance";
     company_size := "Large"; techniques_df := catalog;
     selected_template := ""; selected_techniques := []; messages := Some ms |}.

Definition traced_with_messages (ms : list Message) : Globals :=
  {| client := tracing; model_provider := "Ollama"; industry := "Finance";
     company_size := "Large"; techniques_df := catalog;
     selected_template := ""; selected_techniques := []; messages := Some ms |}.

(** An object with neither shape: it has a role and nothing else. *)
Definition bare_role : Message :=
  {| role := Some "human"; type_ := None; content := None |}.

(** One run of the page against the sample libraries. *)
Definition run_page :=
  page ChatOpenAI AzureOpenAI ChatGoogleGenerativeAI ChatMistralAI Ollama
    str_message run_tree.

(** One call of the Ollama adapter, as the dispatch makes it, under the
    module namespace [G]. *)
Definition call_ollama (G : Globals) :=
  generate_scenario_ollama_wrapper Ollama run_tree G (Some "llama3") ollama_world.

End Sample.

(** ** The top of the script *)

(** [os.environ[k] = v]. *)
Definition environ_set (k v : string) : M unit := λ w,
  (inr tt, {| environ := <[k := v]> (environ w); session_state := session_state w;
              screen := screen w; requests := requests w |}).

(** The three LangSmith variables the script sets first. *)
Definition set_langsmith_environ : M unit :=
  environ_set "LANGCHAIN_TRACING_V2" "true";;
  environ_set "LANGCHAIN_ENDPOINT" "https://api.smith.langchain.com";;
  environ_set "LANGCHAIN_PROJECT" "AttackGen".


(** An assignment to [os.environ] of a value that is not a [str]. *)
Inductive TypeError :=
| StrExpected (v : PyVal).

(** The settings the script copies from the session state into the
    environment: session key and environment variable, in script order. *)
Definition session_settings : list (string * string) :=
  [ ("AZURE_OPENAI_API_KEY", "AZURE_OPENAI_API_KEY");
    ("AZURE_OPENAI_ENDPOINT", "AZURE_OPENAI_ENDPOINT");
    ("azure_deployment", "AZURE_DEPLOYMENT");
    ("openai_api_version", "OPENAI_API_VERSION");
    ("GOOGLE_API_KEY", "GOOGLE_API_KEY");
    ("google_model", "GOOGLE_MODEL");
    ("MISTRAL_API_KEY", "MISTRAL_API_KEY");
    ("mistral_model", "MISTRAL_MODEL");
    ("ollama_model", "OLLAMA_MODEL") ].

(** [if k in st.session_state: os.environ[var] = st.session_state[k]], one
    setting after the other.  The result is the environment after the last
    assignment, or the [TypeError] of the first value that is not a [str]
    with the environment as the earlier assignments left it. *)
Fixpoint sync_environ (settings : list (string * string))
    (session_state : gmap string PyVal) (environ : gmap string string)
  : TypeError * gmap string string + gmap string string :=
  match settings with
  | [] => inr environ
  | (k, var) :: rest =>
      match session_state !! k with
      | None => sync_environ rest session_state environ
      | Some (PStr s) => sync_environ rest session_state (<[var := s]> environ)
      | Some v => inl (StrExpected v, environ)
      end
  end.

(** The nine conditional assignments on the world of the page. *)
Definition sync_session_environ (w : World) : TypeError * World + World :=
  let with_environ environ' :=
    {| environ := environ'; session_state := session_state w;
       screen := screen w; requests := requests w |} in
  match sync_environ session_settings (session_state w) (environ w) with
  | inr environ' => inr (with_environ environ')
  | inl (e, environ') => inl (e, with_environ environ')
  end.

(** ** The technique catalog *)

(** A technique of the ATT&CK data, with the attributes the loader reads;
    a reference is a dictionary. *)
Record Technique := {
  stix_id : string;
  stix_name : string;
  external_references : list (gmap string string);
}.

(** The row appended for a reference that has an external id. *)
Definition technique_row (technique : Technique) (reference_id : string) : TechniqueRow :=
  {| technique_id := stix_id technique;
     technique_name := stix_name technique;
     external_id := reference_id;
     display_name := stix_name technique +:+ " (" +:+ reference_id +:+ ")" |}.

(** The inner loop: [techniques_list] after the references of one technique. *)
Fixpoint append_references (technique : Technique) (references : list (gmap string string))
    (techniques_list : list TechniqueRow) : list TechniqueRow :=
  match references with
  | [] => techniques_list
  | reference :: rest =>
      match reference !! "external_id" with
      | Some external_id =>
          append_references technique rest
            (techniques_list ++ [technique_row technique external_id])
      | None => append_references technique rest techniques_list
      end
  end.

(** The outer loop. *)
Fixpoint append_techniques (techniques : list Technique)
    (techniques_list : list TechniqueRow) : list TechniqueRow :=
  match techniques with
  | [] => techniques_list
  | technique :: rest =>
      append_techniques rest
        (append_references technique (external_references technique) techniques_list)
  end.

(** [load_techniques()], given what [attack_data.get_techniques()] returns
    or raises: the frame, and the line printed when the load fails. *)
Definition load_techniques (get_techniques : Exc + list Technique)
  : list TechniqueRow * option string :=
  match get_techniques with
  | inr techniques => (append_techniques techniques [], None)
  | inl e => ([], Some ("Error in load_techniques: " +:+ str_exc e))
  end.

(** [series.unique()]: first occurrences, in order; [seen] holds the names
    met so far. *)
Fixpoint unique_from (seen names : list string) : list string :=
  match names with
  | [] => []
  | name :: rest =>
      if decide (name ∈ seen) then unique_from seen rest
      else name :: unique_from (name :: seen) rest
  end.

(** The order of [sorted] on strings. *)
Definition str_le (a b : string) : Prop := String.leb a b = true.

#[global] Instance str_le_dec (a b : string) : Decision (str_le a b) :=
  decide (String.leb a b = true).

(** The options of the multi-select:
    [sorted(techniques_df['Display Name'].unique())]. *)
Definition multiselect_options (techniques_df : list TechniqueRow) : Exc + list string :=
  match column_display_name techniques_df with
  | inr names => inr (merge_sort str_le (unique_from [] names))
  | inl e => inl e
  end.

(** ** Further vocabulary *)

(** From [w] to [w'] only the screen changed. *)
Definition only_screen (w w' : World) : Prop :=
  environ w' = environ w ∧ session_state w' = session_state w ∧
  requests w' = requests w.

(** The three elements that show a stored scenario again. *)
Definition scenario_shown (custom_scenario_text : PyVal) : list UIEvent :=
  [ UiMarkdown (PStr "---");
    UiMarkdown custom_scenario_text;
    UiDownload "Download Scenario" custom_scenario_text "custom_scenario.md" "text/markdown" ].

(** The session state an adapter leaves: with tracing on, the run id is
    written under "run_id". *)
Definition with_run_id (G : Globals) (run_tree : RunTree) (s : gmap string PyVal)
  : gmap string PyVal :=
  match client G with
  | Some _ => <["run_id" := PStr (str_uuid (run_tree_id run_tree))]> s
  | None => s
  end.

(** The world an adapter leaves after a generation that succeeded with the
    request [req]. *)
Definition after_generation (G : Globals) (run_tree : RunTree) (req : Request) (w : World)
  : World :=
  {| environ := environ w;
     session_state := with_run_id G run_tree (session_state w);
     screen := screen w ++
               [ UiStatus "Generating scenario...";
                 UiWrite "Initialising AI model.";
                 UiWrite "Model initialised. Generating scenario, please wait.";
                 UiWrite "Scenario generated successfully." ];
     requests := requests w ++ [req] |}.



(** From [w] to [w'] the generated [text] was stored and shown: both flags
    set, the text kept as the scenario and as the last scenario, and the
    screen ending with the rule, the text and the download button. *)
Definition scenario_stored (w w' : World) (text : string) : Prop :=
  session_state w' !! "custom_scenario_generated" = Some (PBool true) ∧
  session_state w' !! "custom_scenario_text" = Some (PStr text) ∧
  session_state w' !! "last_scenario" = Some (PBool true) ∧
  session_state w' !! "last_scenario_text" = Some (PStr text) ∧
  ∃ before, screen w' = screen w ++ before ++ scenario_shown (PStr text).


(** From [w] to [w'] a response came back without a first candidate: the
    flag is set all the same, the stored texts are untouched, and the screen
    ends with the rule and the page's error box for the index error. *)
Definition flagged_without_text (w w' : World) : Prop :=
  session_state w' !! "custom_scenario_generated" = Some (PBool true) ∧
  session_state w' !! "custom_scenario_text" = session_state w !! "custom_scenario_text" ∧
  session_state w' !! "last_scenario_text" = session_state w !! "last_scenario_text" ∧
  ∃ before,
    screen w' = screen w ++ before ++
      [UiMarkdown (PStr "---"); UiError "An error occurred: list index out of range"].

(** The techniques the page passes to the prompt block: those chosen in the
    multi-select, which is only drawn for a catalog with rows. *)
Definition techniques_for_prompt (techniques_df : list TechniqueRow) (chosen : list string)
  : list string :=
  match techniques_df with [] => [] | _ => chosen end.

(** ** Feedback *)

(** A call of [client.create_feedback(run_id, key, score=score, comment=comment)]. *)
Record FeedbackCall := {
  feedback_run_id : PyVal;
  feedback_key : string;
  feedback_score : nat;
  feedback_comment : string;
}.

(** The record [create_feedback] returns. *)
Record FeedbackRecord := { feedback_record_id : UUID }.

(** What the placeholder created by [st.empty()] shows. *)
Inductive Placeholder :=
| PhEmpty
| PhSuccess (body : string)
| PhWarning (body : string)
| PhError (body : string).

(** The world of the feedback section: the world of the page, the entry
    [st.session_state.feedback] (feedback id and score), the placeholder,
    and the feedback calls issued. *)
Record FeedbackState := {
  page_world : World;
  session_feedback : option (string * nat);
  feedback_placeholder : Placeholder;
  feedback_calls : list FeedbackCall;
}.

Section Feedback.

Variable create_feedback : Client → PyVal → string → nat → string → Exc + FeedbackRecord.

(** The body of a thumb button's [if], with its own [try]. *)
Definition submit_feedback (client : Client) (feedback_type_str : string) (score : nat)
    (s : FeedbackState) : FeedbackState :=
  let run_id := default PNone (session_state (page_world s) !! "run_id") in
  if truthy run_id then
    let comment := "" in
    let call := {| feedback_run_id := run_id; feedback_key := feedback_type_str;
                   feedback_score := score; feedback_comment := comment |} in
    match create_feedback client run_id feedback_type_str score comment with
    | inr feedback_record =>
        {| page_world := page_world s;
           session_feedback := Some (str_uuid (feedback_record_id feedback_record), score);
           feedback_placeholder := PhSuccess "Feedback submitted. Thank you.";
           feedback_calls := feedback_calls s ++ [call] |}
    | inl e =>
        {| page_world := page_world s;
           session_feedback := session_feedback s;
           feedback_placeholder :=
             PhError ("An error occurred while creating feedback: " +:+ str_exc e);
           feedback_calls := feedback_calls s ++ [call] |}
    end
  else
    {| page_world := page_world s;
       session_feedback := session_feedback s;
       feedback_placeholder :=
         PhWarning "No run ID found. Please generate a scenario first.";
       feedback_calls := feedback_calls s |}.

(** The feedback section: the placeholder, the rule, and, when a scenario
    was generated and the client exists, the two thumb buttons. *)
Definition feedback_section (client : option Client) (thumbs_up thumbs_down : bool)
    (s : FeedbackState) : FeedbackState :=
  let s := {| page_world := snd (st_markdown (PStr "---") (page_world s));
              session_feedback := session_feedback s;
              feedback_placeholder := PhEmpty;
              feedback_calls := feedback_calls s |} in
  let generated :=
    default (PBool false) (session_state (page_world s) !! "custom_scenario_generated") in
  if truthy generated then
    match client with
    | Some c =>
        let s := {| page_world :=
                      snd (st_markdown (PStr "Rate the scenario to help improve this tool.")
                             (page_world s));
                    session_feedback := session_feedback s;
                    feedback_placeholder := feedback_placeholder s;
                    feedback_calls := feedback_calls s |} in
        let s := if thumbs_up then submit_feedback c "positive" 1 s else s in
        if thumbs_down then submit_feedback c "negative" 0 s else s
    | None => s
    end
  else s.

(** The body of the generation block's [try], up to the note on logging:
    what [dispatch] guards. *)
Definition dispatch_body
    (ChatOpenAI : PyVal → PyVal → Exc + OpenAIChat)
    (AzureOpenAI : option string → option string → option string → Exc + AzureClient)
    (ChatGoogleGenerativeAI : option string → option string → Exc + GoogleChat)
    (ChatMistralAI : option string → Exc + MistralChat)
    (Ollama : option string → Exc + OllamaLLM)
    (str_message : Message → string) (run_tree : RunTree) (G : Globals) (clicked : bool)
  : M unit :=
  (if String.eqb (model_provider G) "Azure OpenAI Service"
   then dispatch_azure AzureOpenAI str_message run_tree G clicked
   else if String.eqb (model_provider G) "Google AI API"
   then dispatch_google ChatGoogleGenerativeAI run_tree G clicked
   else if String.eqb (model_provider G) "Mistral API"
   then dispatch_mistral ChatMistralAI run_tree G clicked
   else if String.eqb (model_provider G) "Ollama"
   then dispatch_ollama Ollama run_tree G clicked
   else dispatch_openai ChatOpenAI run_tree G clicked);;
  match client G with
  | None =>
      st_info "ℹ️ No LangChain API key has been set. This run will not be logged to LangSmith."
  | Some _ => mret tt
  end.

(** The whole generation block: the body, then the feedback section, under
    the one handler.  The feedback section has its own handlers and raises
    nothing, so the handler of the block only ever sees what the body
    raises, and then the feedback section is not reached. *)
Definition generation_block
    (ChatOpenAI : PyVal → PyVal → Exc + OpenAIChat)
    (AzureOpenAI : option string → option string → option string → Exc + AzureClient)
    (ChatGoogleGenerativeAI : option string → option string → Exc + GoogleChat)
    (ChatMistralAI : option string → Exc + MistralChat)
    (Ollama : option string → Exc + OllamaLLM)
    (str_message : Message → string) (run_tree : RunTree) (G : Globals)
    (clicked thumbs_up thumbs_down : bool) (s : FeedbackState) : FeedbackState :=
  match dispatch_body ChatOpenAI AzureOpenAI ChatGoogleGenerativeAI ChatMistralAI Ollama
          str_message run_tree G clicked (page_world s) with
  | (inr _, w') =>
      feedback_section (client G) thumbs_up thumbs_down
        {| page_world := w'; session_feedback := session_feedback s;
           feedback_placeholder := feedback_placeholder s;
           feedback_calls := feedback_calls s |}
  | (inl e, w') =>
      {| page_world := snd (st_error ("An error occurred: " +:+ str_exc e) w');
         session_feedback := session_feedback s;
         feedback_placeholder := feedback_placeholder s;
         feedback_calls := feedback_calls s |}
  end.

End Feedback.

(** The stored run id and flag, as the feedback section reads them. *)
Definition stored_run_id (s : FeedbackState) : PyVal :=
  default PNone (session_state (page_world s) !! "run_id").

Definition scenario_flag (s : FeedbackState) : PyVal :=
  default (PBool false) (session_state (page_world s) !! "custom_scenario_generated").

(** ** More sample data *)

Module Cases.

(** Backends that answer. *)
Definition AzureOpenAI (key endpoint version : option string) : Exc + AzureClient :=
  inr {| chat_completions_create := λ _ _,
           inr {| choices := [ {| message := {| message_content := "# Scenario" |} |} ] |} |}.

Definition ChatOpenAI (key model : PyVal) : Exc + OpenAIChat :=
  inr {| openai_generate := λ _, inr {| generations := [[ {| text := "# Scenario" |} ]] |} |}.

Definition ChatGoogleGenerativeAI (key model : option string) : Exc + GoogleChat :=
  inr {| google_invoke := λ _, inr {| ai_content := "# Scenario" |} |}.

(** A backend whose result holds no candidate. *)
Definition ChatOpenAI_empty (key model : PyVal) : Exc + OpenAIChat :=
  inr {| openai_generate := λ _, inr {| generations := [] |} |}.

(** A module namespace of a large company. *)
Definition namespace (client : option Client) (model_provider industry : string)
    (messages : option (list Message)) : Globals :=
  {| client := client; model_provider := model_provider; industry := industry;
     company_size := "Large"; techniques_df := Sample.catalog;
     selected_template := ""; selected_techniques := []; messages := messages |}.

(** Ollama chosen, and no model selected. *)
Definition ollama_without_model : World :=
  {| environ := <["OLLAMA_MODEL" := ""]> ∅;
     session_state := ∅; screen := []; requests := [] |}.

Definition google_world : World :=
  {| environ := <["GOOGLE_API_KEY" := "key"]> (<["GOOGLE_MODEL" := "gemini-pro"]> ∅);
     session_state := ∅; screen := []; requests := [] |}.

(** The environment still names the deployment of an earlier session; the
    session names another. *)
Definition stale_deployment : World :=
  {| environ := environ Sample.after_success;
     session_state := <["azure_deployment" := PStr "gpt-4o"]> ∅;
     screen := []; requests := [] |}.

(** The same world once the settings have been copied. *)
Definition fresh_deployment : World :=
  {| environ := <["AZURE_DEPLOYMENT" := "gpt-4o"]> (environ Sample.after_success);
     session_state := <["azure_deployment" := PStr "gpt-4o"]> ∅;
     screen := []; requests := [] |}.


(** A technique with a MITRE reference and a reference without an id. *)
Definition phishing : Technique :=
  {| stix_id := "attack-pattern--2"; stix_name := "Phishing";
     external_references :=
       [ <["source_name" := "mitre-attack"]> (<["external_id" := "T1566"]> ∅);
         <["source_name" := "capec"]> ∅ ] |}.


(** A feedback service that accepts every call. *)
Definition create_feedback (client : Client) (run_id : PyVal) (key : string) (score : nat)
    (comment : string) : Exc + FeedbackRecord :=
  inr {| feedback_record_id := {| uuid_int := 7 |} |}.

(** The state at the start of a run. *)
Definition at_start (w : World) : FeedbackState :=
  {| page_world := w; session_feedback := None; feedback_placeholder := PhEmpty;
     feedback_calls := [] |}.

(** A session that holds a scenario and the id of its run. *)
Definition traced_scenario : World :=
  {| environ := ∅;
     session_state :=
       <["custom_scenario_generated" := PBool true]>
         (<["run_id" := PStr "00000000-0000-0000-0000-0000000000ff"]> ∅);
     screen := []; requests := [] |}.

(** A session that holds a scenario generated without tracing. *)
Definition untraced_scenario : World :=
  {| environ := ∅;
     session_state := <["custom_scenario_generated" := PBool true]> ∅;
     screen := []; requests := [] |}.

End Cases.

(** * Properties *)

(** ** Lines of a text *)

Lemma string_app_assoc (a b c : string) : (a +:+ b) +:+ c = a +:+ (b +:+ c).
Proof.
  induction a as [|ch a IH]; [reflexivity |].
  change (String ch ((a +:+ b) +:+ c) = String ch (a +:+ (b +:+ c))).
  f_equal. exact IH.
Qed.

Lemma split_lines_nonempty (s : string) : split_lines s ≠ [].
Proof.
  destruct s as [|c s]; simpl; [discriminate |].
  destruct (Ascii.eqb c "010"); [discriminate |].
  destruct (split_lines s); discriminate.
Qed.

Lemma split_lines_app (a b : string) :
  split_lines (a +:+ nl +:+ b) = split_lines a ++ split_lines b.
Proof.
  induction a as [|c a IH]; simpl.
  - reflexivity.
  - destruct (Ascii.eqb c "010").
    + simpl. f_equal. exact IH.
    + rewrite IH. pose proof (split_lines_nonempty a) as Hne.
      destruct (split_lines a) as [|line rest]; [congruence | reflexivity].
Qed.

Lemma split_lines_newline_free (s : string) :
  newline_free s = true → split_lines s = [s].
Proof.
  induction s as [|c s IH]; simpl; [reflexivity |].
  intros H. apply andb_prop in H as [Hc Hs].
  apply negb_true_iff in Hc. rewrite Hc, (IH Hs). reflexivity.
Qed.

Lemma newline_free_app (a b : string) :
  newline_free a = true → newline_free b = true → newline_free (a +:+ b) = true.
Proof.
  induction a as [|c a IH]; simpl; [auto |].
  intros H Hb. apply andb_prop in H as [Hc Ha].
  rewrite Hc, (IH Ha Hb). reflexivity.
Qed.

Lemma split_lines_concat (l : list string) :
  l ≠ [] → Forall (λ t, newline_free t = true) l →
  split_lines (String.concat nl l) = l.
Proof.
  induction l as [|x l IH]; [congruence |].
  intros _ Hall. apply Forall_cons in Hall as [Hx Hl].
  destruct l as [|y l].
  - simpl. now apply split_lines_newline_free.
  - change (String.concat nl (x :: y :: l)) with (x +:+ nl +:+ String.concat nl (y :: l)).
    rewrite split_lines_app, (split_lines_newline_free x Hx), IH; [reflexivity | discriminate | exact Hl].
Qed.

Lemma template_info_newline_free (selected_template : string) :
  newline_free selected_template = true →
  newline_free (template_info_of selected_template) = true.
Proof.
  intros H. unfold template_info_of. destruct (str_truthy selected_template); [| reflexivity].
  apply (newline_free_app "This is a '"); [reflexivity |].
  apply newline_free_app; [exact H | reflexivity].
Qed.

(** ** The rendered prompt *)

Lemma format_prompt_eq (techniques_string industry company_size template_info : string) :
  format_prompt
    [ ("selected_techniques_string", techniques_string); ("industry", industry);
      ("company_size", company_size); ("template_info", template_info) ] =
  inr [ SystemMessage system_template;
        HumanMessage
          (nl +:+ "**Background information:**" +:+ nl +:+
           "The company operates in the '" +:+ industry +:+
           "' industry and is of size '" +:+ company_size +:+
           "'." +:+ nl +:+ nl +:+ "**Threat actor information:**" +:+ nl +:+
           template_info +:+ nl +:+ techniques_header +:+ nl +:+
           techniques_string +:+ nl +:+ String.concat nl user_text_tail) ].
Proof. vm_compute. reflexivity. Qed.

Lemma user_text_lines (techniques_string industry company_size template_info : string) :
  split_lines
    (nl +:+ "**Background information:**" +:+ nl +:+
     "The company operates in the '" +:+ industry +:+
     "' industry and is of size '" +:+ company_size +:+
     "'." +:+ nl +:+ nl +:+ "**Threat actor information:**" +:+ nl +:+
     template_info +:+ nl +:+ techniques_header +:+ nl +:+
     techniques_string +:+ nl +:+ String.concat nl user_text_tail) =
  split_lines (user_text_head industry company_size) ++
  split_lines template_info ++ [techniques_header] ++
  split_lines techniques_string ++ user_text_tail.
Proof.
  set (rest := template_info +:+ nl +:+ techniques_header +:+ nl +:+
               techniques_string +:+ nl +:+ String.concat nl user_text_tail).
  replace (nl +:+ "**Background information:**" +:+ nl +:+
     "The company operates in the '" +:+ industry +:+
     "' industry and is of size '" +:+ company_size +:+
     "'." +:+ nl +:+ nl +:+ "**Threat actor information:**" +:+ nl +:+ rest)
    with (user_text_head industry company_size +:+ nl +:+ rest).
  2:{ unfold user_text_head. rewrite !string_app_assoc. reflexivity. }
  subst rest. rewrite !split_lines_app.
  do 3 f_equal.
Qed.

(** C6. For a non-empty selection of technique names (none containing a line
    break), the guarded block binds [messages] to the system message and a
    user message whose lines are: the background lines, then the template
    line, then the header, then every selected technique on a line of its
    own in the order given (nothing reordered, nothing dropped or merged),
    then the task lines.  The template line reads
    "This is a '<template>' scenario." when a template is selected and is
    empty otherwise. *)
Theorem build_messages_lists_techniques_in_order
    (selected_techniques : list string)
    (selected_template industry company_size : string) (w : World) :
  selected_techniques ≠ [] →
  Forall (λ t, newline_free t = true) selected_techniques →
  newline_free selected_template = true →
  ∃ user_text,
    build_messages selected_techniques selected_template industry company_size w =
      (inr (Some [SystemMessage system_template; HumanMessage user_text]), w) ∧
    split_lines user_text =
      split_lines (user_text_head industry company_size) ++
      [template_info_of selected_template; techniques_header] ++
      selected_techniques ++ user_text_tail ∧
    (selected_template ≠ "" →
     template_info_of selected_template =
       "This is a '" +:+ selected_template +:+ "' scenario.") ∧
    (selected_template = "" → template_info_of selected_template = "").
Proof.
  intros Hne Hall Htpl.
  eexists. split; [| split; [| split]].
  - unfold build_messages, try_except.
    destruct selected_techniques as [|t ts]; [congruence |].
    cbn [List.length Nat.ltb Nat.leb].
    unfold mbind, M_bind, lift. rewrite format_prompt_eq. reflexivity.
  - rewrite user_text_lines, (split_lines_concat _ Hne Hall).
    rewrite (split_lines_newline_free _ (template_info_newline_free _ Htpl)).
    reflexivity.
  - intros Hsel. unfold template_info_of, str_truthy.
    apply String.eqb_neq in Hsel. rewrite Hsel. reflexivity.
  - intros ->. reflexivity.
Qed.

Lemma build_messages_lists_techniques_in_order_witness :
  ∃ user_text,
    build_messages ["User Execution (T1204)"; "Input Capture (T1056)"]
      "Phishing Attack" "Finance" "Large"
      {| environ := ∅; session_state := ∅; screen := []; requests := [] |} =
      (inr (Some [SystemMessage system_template; HumanMessage user_text]),
       {| environ := ∅; session_state := ∅; screen := []; requests := [] |}) ∧
    split_lines user_text =
      split_lines (user_text_head "Finance" "Large") ++
      [template_info_of "Phishing Attack"; techniques_header] ++
      ["User Execution (T1204)"; "Input Capture (T1056)"] ++ user_text_tail ∧
    ("Phishing Attack" ≠ "" →
     template_info_of "Phishing Attack" = "This is a '" +:+ "Phishing Attack" +:+ "' scenario.") ∧
    ("Phishing Attack" = "" → template_info_of "Phishing Attack" = "").
Proof.
  apply (build_messages_lists_techniques_in_order
           ["User Execution (T1204)"; "Input Capture (T1056)"]
           "Phishing Attack" "Finance" "Large").
  - discriminate.
  - repeat constructor.
  - reflexivity.
Defined.

(** ** Template selection *)

Lemma fmap_rows_isin (values : list string) (df : list TechniqueRow) :
  display_name <$> rows_isin values df =
  filter (λ name, name ∈ values) (display_name <$> df).
Proof.
  unfold rows_isin. induction df as [|row df IH]; [reflexivity |].
  rewrite fmap_cons, !filter_cons. destruct (decide (display_name row ∈ values)).
  - rewrite fmap_cons, IH. reflexivity.
  - exact IH.
Qed.

(** C10. Applying a named template stores, as the selected techniques, the
    display names of the catalog that the template lists: the stored list is
    the catalog's column filtered by membership in the template, so it is a
    subset of the catalog's names and a subsequence of the catalog's column
    (the catalog's order, whatever the template's), and a template entry
    that the catalog lacks is left out with nothing put on the screen. *)
Theorem template_selection_filters_catalog
    (techniques_df : list TechniqueRow) (template : string)
    (template_techniques : list string) (w : World) :
  dict_get template incident_response_templates = Some template_techniques →
  techniques_df ≠ [] →
  ∃ selected : list string,
    template_selection techniques_df template w =
      (inr tt,
       {| environ := environ w;
          session_state := <["selected_techniques" := PList selected]> (session_state w);
          screen := screen w; requests := requests w |}) ∧
    selected = filter (λ name, name ∈ template_techniques) (display_name <$> techniques_df) ∧
    selected ⊆ display_name <$> techniques_df ∧
    selected `sublist_of` (display_name <$> techniques_df) ∧
    (∀ name, name ∈ template_techniques →
             name ∉ display_name <$> techniques_df → name ∉ selected).
Proof.
  intros Htpl Hdf.
  exists (display_name <$> rows_isin template_techniques techniques_df).
  split; [| split; [| split; [| split]]].
  - unfold template_selection. rewrite Htpl.
    destruct techniques_df as [|row df]; [congruence | reflexivity].
  - apply fmap_rows_isin.
  - rewrite fmap_rows_isin. apply list_subseteq_filter.
  - rewrite fmap_rows_isin. apply sublist_filter.
  - intros name _ Hout Hin. apply Hout.
    rewrite fmap_rows_isin in Hin. apply list_elem_of_filter in Hin. tauto.
Qed.

Lemma template_selection_filters_catalog_witness :
  ∃ selected : list string,
    template_selection Sample.catalog "Phishing Attack" Sample.empty_world =
      (inr tt,
       {| environ := environ Sample.empty_world;
          session_state :=
            <["selected_techniques" := PList selected]> (session_state Sample.empty_world);
          screen := screen Sample.empty_world; requests := requests Sample.empty_world |}) ∧
    selected =
      filter (λ name, name ∈ [ "Spearphishing Attachment (T1193)"; "User Execution (T1204)";
                               "Browser Extensions (T1176)";
                               "Credentials from Password Stores (T1555)";
                               "Input Capture (T1056)";
                               "Exfiltration Over C2 Channel (T1041)" ])
        (display_name <$> Sample.catalog) ∧
    selected ⊆ display_name <$> Sample.catalog ∧
    selected `sublist_of` (display_name <$> Sample.catalog) ∧
    (∀ name, name ∈ [ "Spearphishing Attachment (T1193)"; "User Execution (T1204)";
                      "Browser Extensions (T1176)";
                      "Credentials from Password Stores (T1555)";
                      "Input Capture (T1056)";
                      "Exfiltration Over C2 Channel (T1041)" ] →
             name ∉ display_name <$> Sample.catalog → name ∉ selected).
Proof.
  apply (template_selection_filters_catalog Sample.catalog "Phishing Attack").
  - reflexivity.
  - discriminate.
Defined.

(** The template lists User Execution before Input Capture and the catalog
    the other way round: the stored list follows the catalog, and the four
    template entries the catalog lacks are gone. *)
Example template_selection_catalog_order :
  session_state (snd (template_selection Sample.catalog "Phishing Attack" Sample.empty_world))
    !! "selected_techniques" =
  Some (PList ["Input Capture (T1056)"; "User Execution (T1204)"]).
Proof. vm_compute. reflexivity. Qed.

(** ** Running statements *)

Ltac unfold_run :=
  unfold st_status, st_write, st_error, st_info, st_markdown, st_download_button,
    emit, session_set, session_item, session_get, session_has, environ_item, getenv,
    backend, lift, raise, try_except, global_messages, mbind, M_bind, mret, M_ret in *.

Ltac case_run :=
  repeat match goal with
         | H : context [match ?x with _ => _ end] |- _ =>
             lazymatch x with
             | context [match _ with _ => _ end] => fail
             | _ => destruct x eqn:?; simpl in H
             end
         | |- context [match ?x with _ => _ end] =>
             lazymatch x with
             | context [match _ with _ => _ end] => fail
             | _ => destruct x eqn:?; simpl
             end
         end.

Lemma append_cons_nonempty (a : string) (c : ascii) (b : string) :
  a +:+ String c b ≠ "".
Proof. destruct a; discriminate. Qed.

Lemma str_uuid_nonempty (u : UUID) : str_uuid u ≠ "".
Proof. unfold str_uuid. apply append_cons_nonempty. Qed.

Section AdapterFacts.
Variable ChatOpenAI : PyVal → PyVal → Exc + OpenAIChat.
Variable AzureOpenAI : option string → option string → option string → Exc + AzureClient.
Variable ChatGoogleGenerativeAI : option string → option string → Exc + GoogleChat.
Variable ChatMistralAI : option string → Exc + MistralChat.
Variable Ollama : option string → Exc + OllamaLLM.
Variable str_message : Message → string.
Variable run_tree : RunTree.
Variable G : Globals.


Ltac run_id_case :=
  first [ split; [apply lookup_insert_eq | apply str_uuid_nonempty] | reflexivity ].

Lemma openai_run_id key model ms w r w' :
  generate_scenario_wrapper ChatOpenAI run_tree G key model ms w = (inr r, w') →
  run_id_carried G run_tree w w'.
Proof.
  unfold generate_scenario_wrapper, generate_scenario_traced, generate_scenario,
    run_id_carried.
  intros H. unfold_run.
  destruct (client G); case_run; inversion H; subst; simpl; run_id_case.
Qed.

Lemma azure_run_id ms w r w' :
  generate_scenario_azure_wrapper AzureOpenAI str_message run_tree G ms w = (inr r, w') →
  run_id_carried G run_tree w w'.
Proof.
  unfold generate_scenario_azure_wrapper, generate_scenario_azure_traced,
    generate_scenario_azure, run_id_carried.
  intros H. unfold_run.
  destruct (client G); case_run; inversion H; subst; simpl; run_id_case.
Qed.

Lemma google_run_id key model ms w r w' :
  generate_scenario_google_wrapper ChatGoogleGenerativeAI run_tree G key model ms w
    = (inr r, w') →
  run_id_carried G run_tree w w'.
Proof.
  unfold generate_scenario_google_wrapper, generate_scenario_google_traced,
    generate_scenario_google, run_id_carried.
  intros H. unfold_run.
  destruct (client G); case_run; inversion H; subst; simpl; run_id_case.
Qed.

Lemma mistral_run_id key model ms w r w' :
  generate_scenario_mistral_wrapper ChatMistralAI run_tree G key model ms w
    = (inr r, w') →
  run_id_carried G run_tree w w'.
Proof.
  unfold generate_scenario_mistral_wrapper, generate_scenario_mistral_traced,
    generate_scenario_mistral, run_id_carried.
  intros H. unfold_run.
  destruct (client G); case_run; inversion H; subst; simpl; run_id_case.
Qed.

Lemma ollama_run_id model w r w' :
  generate_scenario_ollama_wrapper Ollama run_tree G model w = (inr r, w') →
  run_id_carried G run_tree w w'.
Proof.
  unfold generate_scenario_ollama_wrapper, generate_scenario_ollama_traced,
    generate_scenario_ollama, run_id_carried.
  intros H. unfold_run.
  destruct (client G); case_run; inversion H; subst; simpl; run_id_case.
Qed.


(** *** What a raising backend leaves behind *)

Ltac failure_case :=
  split; [reflexivity |];
  unfold error_boxes; simpl; rewrite !omap_app; simpl; rewrite ?app_nil_r; reflexivity.

Lemma openai_failure key model ms w e :
  openai_raises ChatOpenAI key ms w e →
  fst (generate_scenario_wrapper ChatOpenAI run_tree G key model ms w) = inr None ∧
  error_boxes (snd (generate_scenario_wrapper ChatOpenAI run_tree G key model ms w)) =
    error_boxes w ++ [generation_failed e].
Proof.
  intros (mn & Hmn & Hraise).
  unfold generate_scenario_wrapper, generate_scenario_traced, generate_scenario.
  unfold_run.
  destruct Hraise as [Hmk | (llm & Hmk & Hcall)];
    destruct (client G); rewrite Hmn; simpl; rewrite Hmk; simpl;
    rewrite ?Hcall; simpl; failure_case.
Qed.

Lemma azure_failure ms w e :
  azure_raises AzureOpenAI str_message ms w e →
  fst (generate_scenario_azure_wrapper AzureOpenAI str_message run_tree G ms w) = inr None ∧
  error_boxes (snd (generate_scenario_azure_wrapper AzureOpenAI str_message run_tree G ms w)) =
    error_boxes w ++ [generation_failed e].
Proof.
  unfold azure_raises.
  unfold generate_scenario_azure_wrapper, generate_scenario_azure_traced,
    generate_scenario_azure.
  unfold_run.
  intros [Hmk | (llm & formatted & Hmk & Hfmt & Hcall)];
    destruct (client G); simpl; rewrite Hmk; simpl;
    rewrite ?Hfmt; simpl; rewrite ?Hcall; simpl; failure_case.
Qed.

Lemma google_failure key model ms w e :
  google_raises ChatGoogleGenerativeAI ms w e →
  fst (generate_scenario_google_wrapper ChatGoogleGenerativeAI run_tree G key model ms w)
    = inr None ∧
  error_boxes
    (snd (generate_scenario_google_wrapper ChatGoogleGenerativeAI run_tree G key model ms w)) =
    error_boxes w ++ [generation_failed e].
Proof.
  unfold google_raises.
  unfold generate_scenario_google_wrapper, generate_scenario_google_traced,
    generate_scenario_google.
  unfold_run.
  intros [Hmk | (llm & Hmk & Hcall)];
    destruct (client G); simpl; rewrite Hmk; simpl;
    rewrite ?Hcall; simpl; failure_case.
Qed.

Lemma mistral_failure key model ms w e :
  mistral_raises ChatMistralAI ms w e →
  fst (generate_scenario_mistral_wrapper ChatMistralAI run_tree G key model ms w)
    = inr None ∧
  error_boxes
    (snd (generate_scenario_mistral_wrapper ChatMistralAI run_tree G key model ms w)) =
    error_boxes w ++ [generation_failed e].
Proof.
  unfold mistral_raises.
  unfold generate_scenario_mistral_wrapper, generate_scenario_mistral_traced,
    generate_scenario_mistral.
  unfold_run.
  intros [Hmk | (llm & Hmk & Hcall)];
    destruct (client G); simpl; rewrite Hmk; simpl;
    rewrite ?Hcall; simpl; failure_case.
Qed.

Lemma ollama_failure model w e :
  ollama_raises Ollama G w e →
  fst (generate_scenario_ollama_wrapper Ollama run_tree G model w) = inr None ∧
  error_boxes (snd (generate_scenario_ollama_wrapper Ollama run_tree G model w)) =
    error_boxes w ++ [generation_failed e].
Proof.
  unfold ollama_raises.
  unfold generate_scenario_ollama_wrapper, generate_scenario_ollama_traced,
    generate_scenario_ollama.
  unfold_run.
  intros [Hmk | (llm & ms & Hmk & Hms & Hcall)];
    destruct (client G); simpl; rewrite Hmk; simpl;
    rewrite ?Hms; simpl; rewrite ?Hcall; simpl; failure_case.
Qed.


(** C3. Whatever an adapter returns, a response or [None]: with the
    tracing client constructed the session state then holds under "run_id"
    the id of the run, a non-empty string, written in the success path and
    in the handler alike; without the client the adapter leaves the session
    state as it found it, so no run id is attached to either outcome. *)
Theorem run_id_carried_by_every_outcome :
  (∀ key model ms w r w',
     generate_scenario_wrapper ChatOpenAI run_tree G key model ms w = (inr r, w') →
     run_id_carried G run_tree w w') ∧
  (∀ ms w r w',
     generate_scenario_azure_wrapper AzureOpenAI str_message run_tree G ms w = (inr r, w') →
     run_id_carried G run_tree w w') ∧
  (∀ key model ms w r w',
     generate_scenario_google_wrapper ChatGoogleGenerativeAI run_tree G key model ms w
       = (inr r, w') →
     run_id_carried G run_tree w w') ∧
  (∀ key model ms w r w',
     generate_scenario_mistral_wrapper ChatMistralAI run_tree G key model ms w
       = (inr r, w') →
     run_id_carried G run_tree w w') ∧
  (∀ model w r w',
     generate_scenario_ollama_wrapper Ollama run_tree G model w = (inr r, w') →
     run_id_carried G run_tree w w').
Proof.
  repeat split; intros.
  - eapply openai_run_id; eassumption.
  - eapply azure_run_id; eassumption.
  - eapply google_run_id; eassumption.
  - eapply mistral_run_id; eassumption.
  - eapply ollama_run_id; eassumption.
Qed.

(** C7. In each of the five adapters an exception raised by the backend,
    by the client constructor or by the call on the client, does not leave
    the adapter: the adapter returns [None]. *)
Theorem backend_faults_become_failures :
  (∀ key model ms w e,
     openai_raises ChatOpenAI key ms w e →
     fst (generate_scenario_wrapper ChatOpenAI run_tree G key model ms w) = inr None) ∧
  (∀ ms w e,
     azure_raises AzureOpenAI str_message ms w e →
     fst (generate_scenario_azure_wrapper AzureOpenAI str_message run_tree G ms w)
       = inr None) ∧
  (∀ key model ms w e,
     google_raises ChatGoogleGenerativeAI ms w e →
     fst (generate_scenario_google_wrapper ChatGoogleGenerativeAI run_tree G key model ms w)
       = inr None) ∧
  (∀ key model ms w e,
     mistral_raises ChatMistralAI ms w e →
     fst (generate_scenario_mistral_wrapper ChatMistralAI run_tree G key model ms w)
       = inr None) ∧
  (∀ model w e,
     ollama_raises Ollama G w e →
     fst (generate_scenario_ollama_wrapper Ollama run_tree G model w) = inr None).
Proof.
  repeat split; intros.
  - eapply openai_failure; eassumption.
  - eapply azure_failure; eassumption.
  - eapply google_failure; eassumption.
  - eapply mistral_failure; eassumption.
  - eapply ollama_failure; eassumption.
Qed.

(** C8 (corrected statement). When the backend of an adapter raises [e], the adapter
    puts exactly one error box on the screen, and its text is the banner
    "An error occurred while generating the scenario: " followed by
    [str(e)] as it is, with nothing after it. *)
Theorem failure_banner_then_backend_text :
  (∀ key model ms w e,
     openai_raises ChatOpenAI key ms w e →
     error_boxes (snd (generate_scenario_wrapper ChatOpenAI run_tree G key model ms w)) =
       error_boxes w ++
       ["An error occurred while generating the scenario: " +:+ str_exc e]) ∧
  (∀ ms w e,
     azure_raises AzureOpenAI str_message ms w e →
     error_boxes
       (snd (generate_scenario_azure_wrapper AzureOpenAI str_message run_tree G ms w)) =
       error_boxes w ++
       ["An error occurred while generating the scenario: " +:+ str_exc e]) ∧
  (∀ key model ms w e,
     google_raises ChatGoogleGenerativeAI ms w e →
     error_boxes
       (snd (generate_scenario_google_wrapper ChatGoogleGenerativeAI run_tree G
               key model ms w)) =
       error_boxes w ++
       ["An error occurred while generating the scenario: " +:+ str_exc e]) ∧
  (∀ key model ms w e,
     mistral_raises ChatMistralAI ms w e →
     error_boxes
       (snd (generate_scenario_mistral_wrapper ChatMistralAI run_tree G key model ms w)) =
       error_boxes w ++
       ["An error occurred while generating the scenario: " +:+ str_exc e]) ∧
  (∀ model w e,
     ollama_raises Ollama G w e →
     error_boxes (snd (generate_scenario_ollama_wrapper Ollama run_tree G model w)) =
       error_boxes w ++
       ["An error occurred while generating the scenario: " +:+ str_exc e]).
Proof.
  repeat split; intros.
  - eapply openai_failure; eassumption.
  - eapply azure_failure; eassumption.
  - eapply google_failure; eassumption.
  - eapply mistral_failure; eassumption.
  - eapply ollama_failure; eassumption.
Qed.

End AdapterFacts.

Lemma run_id_carried_by_every_outcome_witness :
  run_id_carried (Sample.traced_with_messages []) Sample.run_tree Sample.after_success
    (snd (generate_scenario_wrapper Sample.ChatOpenAI Sample.run_tree
            (Sample.traced_with_messages []) (PStr "sk-test") (PStr "gpt-4") []
            Sample.after_success)).
Proof.
  apply (proj1 (run_id_carried_by_every_outcome
                  Sample.ChatOpenAI Sample.AzureOpenAI Sample.ChatGoogleGenerativeAI
                  Sample.ChatMistralAI Sample.Ollama Sample.str_message Sample.run_tree
                  (Sample.traced_with_messages []))
           (PStr "sk-test") (PStr "gpt-4") [] Sample.after_success None).
  reflexivity.
Defined.

Lemma backend_faults_become_failures_witness :
  fst (generate_scenario_wrapper Sample.ChatOpenAI Sample.run_tree
         (Sample.traced_with_messages []) (PStr "sk-test") (PStr "gpt-4") []
         Sample.after_success) = inr None.
Proof.
  apply (proj1 (backend_faults_become_failures
                  Sample.ChatOpenAI Sample.AzureOpenAI Sample.ChatGoogleGenerativeAI
                  Sample.ChatMistralAI Sample.Ollama Sample.str_message Sample.run_tree
                  (Sample.traced_with_messages []))
           (PStr "sk-test") (PStr "gpt-4") [] Sample.after_success
           (BackendError "Request timed out.")).
  exists (PStr "gpt-4"). split; [reflexivity |].
  right. eexists. split; reflexivity.
Defined.

Lemma failure_banner_then_backend_text_witness :
  error_boxes
    (snd (generate_scenario_wrapper Sample.ChatOpenAI Sample.run_tree
            (Sample.traced_with_messages []) (PStr "sk-test") (PStr "gpt-4") []
            Sample.after_success)) =
  error_boxes Sample.after_success ++
  ["An error occurred while generating the scenario: " +:+
   str_exc (BackendError "Request timed out.")].
Proof.
  apply (proj1 (failure_banner_then_backend_text
                  Sample.ChatOpenAI Sample.AzureOpenAI Sample.ChatGoogleGenerativeAI
                  Sample.ChatMistralAI Sample.Ollama Sample.str_message Sample.run_tree
                  (Sample.traced_with_messages []))
           (PStr "sk-test") (PStr "gpt-4") [] Sample.after_success
           (BackendError "Request timed out.")).
  exists (PStr "gpt-4"). split; [reflexivity |].
  right. eexists. split; reflexivity.
Defined.

(** C8 (original statement) does not hold: the OpenAI backend times out,
    and the error box shows the banner before the backend's text, not the
    text alone. *)
Lemma failure_message_not_verbatim :
  error_boxes
    (snd (generate_scenario_wrapper Sample.ChatOpenAI Sample.run_tree
            (Sample.with_messages []) (PStr "sk-test") (PStr "gpt-4") []
            Sample.after_success)) =
    ["An error occurred while generating the scenario: Request timed out."] ∧
  "An error occurred while generating the scenario: Request timed out." ≠
    str_exc (BackendError "Request timed out.").
Proof. split; [vm_compute; reflexivity | discriminate]. Qed.

(** ** The Azure wire format *)

Lemma human_to_user_spec (token : string) :
  (token = "human" → human_to_user token = "user") ∧
  (token ≠ "human" → human_to_user token = token).
Proof.
  unfold human_to_user. destruct (String.eqb_spec token "human"); split; congruence.
Qed.

Section WireFormat.
Variable str_message : Message → string.

Lemma format_messages_supported (ms : list Message) (formatted : list WireMessage) :
  Forall (λ m, ¬ unsupported m) ms →
  ∃ wire, format_messages str_message ms formatted = inr (formatted ++ wire) ∧
          Forall2 wire_of ms wire.
Proof.
  revert formatted. induction ms as [|m ms IH]; intros formatted Hall.
  - exists []. rewrite app_nil_r. split; [reflexivity | constructor].
  - apply Forall_cons in Hall as [Hm Hms]. simpl.
    destruct (role m) as [r|] eqn:Hr, (content m) as [c|] eqn:Hc.
    + destruct (IH (formatted ++ [{| wire_role := human_to_user r; wire_content := c |}]) Hms)
        as (wire & Heq & Hwire).
      exists ({| wire_role := human_to_user r; wire_content := c |} :: wire).
      rewrite Heq, <- app_assoc. split; [reflexivity |].
      constructor; [| exact Hwire].
      exists r, c. split; [left; auto |]. split; [reflexivity | apply human_to_user_spec].
    + exfalso. apply Hm. split; intros [_ [x Hx]]; rewrite Hc in Hx; discriminate.
    + destruct (type_ m) as [t|] eqn:Ht.
      * destruct (IH (formatted ++ [{| wire_role := human_to_user t; wire_content := c |}]) Hms)
          as (wire & Heq & Hwire).
        exists ({| wire_role := human_to_user t; wire_content := c |} :: wire).
        rewrite Heq, <- app_assoc. split; [reflexivity |].
        constructor; [| exact Hwire].
        exists t, c. split; [right; auto |]. split; [reflexivity | apply human_to_user_spec].
      * exfalso. apply Hm. split; intros [[x Hx] _]; [rewrite Hr in Hx | rewrite Ht in Hx]; discriminate.
    + exfalso. apply Hm. split; intros [_ [x Hx]]; rewrite Hc in Hx; discriminate.
Qed.

Lemma format_messages_unsupported (ms : list Message) (formatted : list WireMessage) :
  Exists unsupported ms →
  ∃ m, m ∈ ms ∧ unsupported m ∧
       format_messages str_message ms formatted =
         inl (ValueError ("Unsupported message format: " +:+ str_message m)).
Proof.
  revert formatted. induction ms as [|m ms IH]; intros formatted Hex.
  - inversion Hex.
  - simpl.
    destruct (role m) as [r|] eqn:Hr, (content m) as [c|] eqn:Hc.
    + apply Exists_cons in Hex as [[Hno _] | Hex].
      * exfalso. apply Hno. rewrite Hr, Hc. split; eauto.
      * destruct (IH (formatted ++ [{| wire_role := human_to_user r; wire_content := c |}]) Hex)
          as (m' & Hin & Hun & Heq).
        exists m'. split; [right; exact Hin | split; [exact Hun | exact Heq]].
    + destruct (type_ m); exists m; (split; [left |]);
        (split; [| reflexivity]);
        split; intros [_ [x Hx]]; rewrite Hc in Hx; discriminate.
    + destruct (type_ m) as [t|] eqn:Ht.
      * apply Exists_cons in Hex as [[_ Hno] | Hex].
        -- exfalso. apply Hno. rewrite Ht, Hc. split; eauto.
        -- destruct (IH (formatted ++ [{| wire_role := human_to_user t; wire_content := c |}]) Hex)
             as (m' & Hin & Hun & Heq).
           exists m'. split; [right; exact Hin | split; [exact Hun | exact Heq]].
      * exists m. split; [left |]. split; [| reflexivity].
        split; intros [[x Hx] _]; [rewrite Hr in Hx | rewrite Ht in Hx]; discriminate.
    + destruct (type_ m); exists m; (split; [left |]);
        (split; [| reflexivity]);
        split; intros [_ [x Hx]]; rewrite Hc in Hx; discriminate.
Qed.

Variable AzureOpenAI : option string → option string → option string → Exc + AzureClient.
Variable run_tree : RunTree.
Variable G : Globals.

(** C4. Once the Azure client is constructed: when every message has the
    role/content or the type/content shape, the adapter issues one request
    whose messages render the given ones in order, "human" sent as "user"
    and every other token as it is; when some message has neither shape,
    the adapter returns [None], issues no request, and shows one error box
    whose text contains "Unsupported message format". *)
Theorem azure_adapter_role_translation (ms : list Message) (w : World) (llm : AzureClient) :
  AzureOpenAI (environ w !! "AZURE_OPENAI_API_KEY") (environ w !! "AZURE_OPENAI_ENDPOINT")
    (environ w !! "OPENAI_API_VERSION") = inr llm →
  let run := generate_scenario_azure_wrapper AzureOpenAI str_message run_tree G ms w in
  (Forall (λ m, ¬ unsupported m) ms →
   ∃ wire, requests (snd run) =
             requests w ++ [ReqAzure (environ w !! "AZURE_DEPLOYMENT") wire] ∧
           Forall2 wire_of ms wire) ∧
  (Exists unsupported ms →
   fst run = inr None ∧ requests (snd run) = requests w ∧
   ∃ body, error_boxes (snd run) = error_boxes w ++ [body] ∧
           Substring "Unsupported message format" body).
Proof.
  intros Hmk run. subst run. split.
  - intros Hall.
    destruct (format_messages_supported ms [] Hall) as (wire & Hfmt & Hwire).
    exists wire. split; [| exact Hwire].
    unfold generate_scenario_azure_wrapper, generate_scenario_azure_traced,
      generate_scenario_azure.
    unfold_run.
    destruct (client G); simpl; rewrite Hmk; simpl; rewrite Hfmt; simpl;
      destruct (chat_completions_create llm (environ w !! "AZURE_DEPLOYMENT") wire);
      reflexivity.
  - intros Hex.
    destruct (format_messages_unsupported ms [] Hex) as (m & _ & _ & Hfmt).
    unfold generate_scenario_azure_wrapper, generate_scenario_azure_traced,
      generate_scenario_azure.
    unfold_run.
    destruct (client G); simpl; rewrite Hmk; simpl; rewrite Hfmt; simpl;
      (split; [reflexivity |]); (split; [reflexivity |]);
      (eexists; split;
       [ unfold error_boxes; simpl; rewrite !omap_app; simpl; rewrite ?app_nil_r; reflexivity
       | exists "An error occurred while generating the scenario: ",
                (": " +:+ str_message m); reflexivity ]).
Qed.

End WireFormat.

Lemma azure_adapter_role_translation_witness :
  (∃ wire,
     requests (snd (generate_scenario_azure_wrapper Sample.AzureOpenAI Sample.str_message
                      Sample.run_tree (Sample.with_messages [])
                      [SystemMessage "s"; HumanMessage "u"] Sample.azure_without_key)) =
       requests Sample.azure_without_key ++
       [ReqAzure (environ Sample.azure_without_key !! "AZURE_DEPLOYMENT") wire] ∧
     Forall2 wire_of [SystemMessage "s"; HumanMessage "u"] wire) ∧
  (let run := generate_scenario_azure_wrapper Sample.AzureOpenAI Sample.str_message
                Sample.run_tree (Sample.with_messages [])
                [SystemMessage "s"; Sample.bare_role] Sample.azure_without_key in
   fst run = inr None ∧ requests (snd run) = requests Sample.azure_without_key ∧
   ∃ body, error_boxes (snd run) = error_boxes Sample.azure_without_key ++ [body] ∧
           Substring "Unsupported message format" body).
Proof.
  split.
  - apply (azure_adapter_role_translation Sample.str_message Sample.AzureOpenAI
             Sample.run_tree (Sample.with_messages [])
             [SystemMessage "s"; HumanMessage "u"] Sample.azure_without_key
             {| chat_completions_create := λ _ _, inl (BackendError "Error code: 401") |}
             eq_refl).
    repeat constructor; intros [_ Hno]; apply Hno; split; eexists; reflexivity.
  - apply (azure_adapter_role_translation Sample.str_message Sample.AzureOpenAI
             Sample.run_tree (Sample.with_messages [])
             [SystemMessage "s"; Sample.bare_role] Sample.azure_without_key
             {| chat_completions_create := λ _ _, inl (BackendError "Error code: 401") |}
             eq_refl).
    apply Exists_cons. right. apply Exists_cons. left.
    split; intros [_ [x Hx]]; discriminate.
Defined.

(** The rendered prompt on the wire: the human message is sent as "user". *)
Example azure_wire_roles :
  format_messages Sample.str_message [SystemMessage "s"; HumanMessage "u"] [] =
  inr [ {| wire_role := "system"; wire_content := "s" |};
        {| wire_role := "user"; wire_content := "u" |} ].
Proof. reflexivity. Qed.

(** ** Further facts about the adapters and the dispatch *)

Section DispatchFacts.
Variable ChatOpenAI : PyVal → PyVal → Exc + OpenAIChat.
Variable AzureOpenAI : option string → option string → option string → Exc + AzureClient.
Variable ChatGoogleGenerativeAI : option string → option string → Exc + GoogleChat.
Variable ChatMistralAI : option string → Exc + MistralChat.
Variable Ollama : option string → Exc + OllamaLLM.
Variable str_message : Message → string.
Variable run_tree : RunTree.
Variable G : Globals.

Ltac frame_case :=
  intros k Hk; unfold_run; destruct (client G); case_run; simpl;
  rewrite ?lookup_insert_ne by congruence; reflexivity.

(** The only session key an adapter writes is "run_id": the scenario stored
    by an earlier success is out of its reach. *)
Lemma openai_writes_only_run_id key model ms w :
  ∀ k, k ≠ "run_id" →
    session_state (snd (generate_scenario_wrapper ChatOpenAI run_tree G key model ms w)) !! k =
    session_state w !! k.
Proof.
  unfold generate_scenario_wrapper, generate_scenario_traced, generate_scenario.
  frame_case.
Qed.

Lemma azure_writes_only_run_id ms w :
  ∀ k, k ≠ "run_id" →
    session_state
      (snd (generate_scenario_azure_wrapper AzureOpenAI str_message run_tree G ms w)) !! k =
    session_state w !! k.
Proof.
  unfold generate_scenario_azure_wrapper, generate_scenario_azure_traced,
    generate_scenario_azure.
  frame_case.
Qed.

Lemma google_writes_only_run_id key model ms w :
  ∀ k, k ≠ "run_id" →
    session_state
      (snd (generate_scenario_google_wrapper ChatGoogleGenerativeAI run_tree G
              key model ms w)) !! k =
    session_state w !! k.
Proof.
  unfold generate_scenario_google_wrapper, generate_scenario_google_traced,
    generate_scenario_google.
  frame_case.
Qed.

Lemma mistral_writes_only_run_id key model ms w :
  ∀ k, k ≠ "run_id" →
    session_state
      (snd (generate_scenario_mistral_wrapper ChatMistralAI run_tree G key model ms w)) !! k =
    session_state w !! k.
Proof.
  unfold generate_scenario_mistral_wrapper, generate_scenario_mistral_traced,
    generate_scenario_mistral.
  frame_case.
Qed.

Lemma ollama_writes_only_run_id model w :
  ∀ k, k ≠ "run_id" →
    session_state (snd (generate_scenario_ollama_wrapper Ollama run_tree G model w)) !! k =
    session_state w !! k.
Proof.
  unfold generate_scenario_ollama_wrapper, generate_scenario_ollama_traced,
    generate_scenario_ollama.
  frame_case.
Qed.

(** The re-display writes nothing to the session state. *)
Lemma show_previous_scenario_keeps_session w :
  session_state (snd (show_previous_scenario w)) = session_state w.
Proof.
  unfold show_previous_scenario, previous_scenario_generated.
  unfold_run. case_run; simpl; reflexivity.
Qed.

(** With [messages] unbound the Ollama adapter is entered all the same and
    issues no request. *)
Lemma ollama_unbound_no_request model w :
  messages G = None →
  requests (snd (generate_scenario_ollama_wrapper Ollama run_tree G model w)) = requests w.
Proof.
  intros Hms.
  unfold generate_scenario_ollama_wrapper, generate_scenario_ollama_traced,
    generate_scenario_ollama.
  unfold_run. rewrite Hms. destruct (client G); case_run; simpl; reflexivity.
Qed.

(** With [messages] bound the Ollama adapter sends the bound list, and the
    model of the environment. *)
Lemma ollama_sends_bound_messages model w ms llm :
  messages G = Some ms →
  Ollama (environ w !! "OLLAMA_MODEL") = inr llm →
  requests (snd (generate_scenario_ollama_wrapper Ollama run_tree G model w)) =
    requests w ++ [ReqOllama ms (environ w !! "OLLAMA_MODEL")].
Proof.
  intros Hms Hmk.
  unfold generate_scenario_ollama_wrapper, generate_scenario_ollama_traced,
    generate_scenario_ollama.
  unfold_run. rewrite Hms. destruct (client G); simpl; rewrite Hmk; simpl;
    case_run; simpl; reflexivity.
Qed.

Ltac unfold_dispatch :=
  unfold dispatch, dispatch_azure, dispatch_google, dispatch_mistral, dispatch_ollama,
    dispatch_openai, show_previous_scenario, previous_scenario_generated, store_scenario.

(** The generation block never raises: its handler turns whatever is raised
    inside it into an error box. *)
Lemma dispatch_never_raises clicked w :
  fst (dispatch ChatOpenAI AzureOpenAI ChatGoogleGenerativeAI ChatMistralAI
         Ollama str_message run_tree G clicked w) = inr tt.
Proof.
  unfold dispatch, try_except, st_error, emit.
  match goal with |- context [match ?body w with _ => _ end] => destruct (body w) as [[e|[]] w'] end;
    reflexivity.
Qed.

(** With [messages] unbound, no branch of the dispatch issues a request. *)
Lemma unbound_messages_no_request clicked w :
  messages G = None →
  requests (snd (dispatch ChatOpenAI AzureOpenAI ChatGoogleGenerativeAI ChatMistralAI
                   Ollama str_message run_tree G clicked w)) = requests w.
Proof.
  intros Hms. unfold_dispatch.
  unfold generate_scenario_ollama_wrapper, generate_scenario_ollama_traced,
    generate_scenario_ollama.
  unfold_run. rewrite Hms.
  destruct clicked; case_run; simpl; reflexivity.
Qed.

(** The tests that do gate the call: with the industry or the company size
    empty, no branch of the dispatch issues a request. *)
Lemma missing_context_no_request clicked w :
  industry G = "" ∨ company_size G = "" →
  requests (snd (dispatch ChatOpenAI AzureOpenAI ChatGoogleGenerativeAI ChatMistralAI
                   Ollama str_message run_tree G clicked w)) = requests w.
Proof.
  intros Hctx. unfold_dispatch. unfold_run.
  assert (str_truthy (industry G) && str_truthy (company_size G) = false) as Hgate.
  { destruct Hctx as [-> | ->]; [reflexivity | apply andb_false_r]. }
  destruct (str_truthy (industry G)), (str_truthy (company_size G)); try discriminate;
    simpl; destruct clicked; case_run; simpl; reflexivity.
Qed.

(** So does the test on the Azure deployment name. *)
Lemma azure_missing_deployment_no_request clicked w :
  environ w !! "AZURE_DEPLOYMENT" = Some "" →
  requests (snd (dispatch_azure AzureOpenAI str_message run_tree G clicked w)) = requests w.
Proof.
  intros Hdep. unfold dispatch_azure. unfold_run.
  destruct clicked; simpl; [| reflexivity].
  destruct (environ w !! "AZURE_OPENAI_API_KEY") as [key|]; simpl; [| reflexivity].
  destruct (str_truthy key); simpl;
    (destruct (environ w !! "AZURE_OPENAI_ENDPOINT") as [endpoint|]; simpl; [| reflexivity]);
    destruct (str_truthy endpoint); simpl; rewrite Hdep; reflexivity.
Qed.

End DispatchFacts.

(** ** Runs of the page on given inputs *)

(** C1. Azure is selected, the API key in the environment is the empty
    string, the endpoint, the deployment, the industry and the company size
    are set, and Generate is clicked: the page asks for the key and then
    calls the adapter all the same, which issues a request to the backend. *)
Theorem azure_empty_api_key_reaches_backend :
  let w' := snd (Sample.run_page None "Azure OpenAI Service" "Finance" "Large"
                   Sample.catalog "" ["User Execution (T1204)"] true
                   Sample.azure_without_key) in
  environ Sample.azure_without_key !! "AZURE_OPENAI_API_KEY" = Some "" ∧
  screen w' =
    [ UiInfo "Please add your Azure OpenAI Service API key to continue.";
      UiStatus "Generating scenario...";
      UiWrite "Initialising AI model.";
      UiWrite "Model initialised. Generating scenario, please wait.";
      UiError "An error occurred while generating the scenario: Error code: 401";
      UiMarkdown (PStr "---");
      UiInfo "ℹ️ No LangChain API key has been set. This run will not be logged to LangSmith." ] ∧
  ∃ wire, requests w' = [ReqAzure (Some "gpt-4") wire].
Proof.
  split; [reflexivity |]. split; [vm_compute; reflexivity |].
  eexists. vm_compute. reflexivity.
Qed.

(** C2. The Ollama adapter is called with the model alone.  With the
    module-level name [messages] unbound the call enters the adapter, fails
    there on the name and issues no request; with the name bound, the same
    call sends whatever list the name is bound to. *)
Theorem ollama_adapter_reads_module_messages :
  fst (Sample.call_ollama Sample.no_messages) = inr None ∧
  requests (snd (Sample.call_ollama Sample.no_messages)) = [] ∧
  screen (snd (Sample.call_ollama Sample.no_messages)) =
    [ UiStatus "Generating scenario...";
      UiWrite "Initialising AI model.";
      UiWrite "Model initialised. Generating scenario, please wait.";
      UiError "An error occurred while generating the scenario: name 'messages' is not defined" ] ∧
  requests (snd (Sample.call_ollama (Sample.with_messages [HumanMessage "A"]))) =
    [ReqOllama [HumanMessage "A"] (Some "llama3")] ∧
  requests (snd (Sample.call_ollama (Sample.with_messages [HumanMessage "B"]))) =
    [ReqOllama [HumanMessage "B"] (Some "llama3")].
Proof. repeat split; vm_compute; reflexivity. Qed.

(** C5. Ollama is selected with tracing on, no technique is selected and
    Generate is clicked: no prompt is built and no request is issued, yet
    the Ollama adapter is entered, reports the unbound name as a failed
    generation and records a run id.  Under Azure the same submission stops
    at the call site, before the adapter. *)
Theorem empty_selection_enters_ollama_adapter :
  fst (build_messages [] "" "Finance" "Large" Sample.ollama_world) = inr None ∧
  (let w' := snd (Sample.run_page Sample.tracing "Ollama" "Finance" "Large"
                    Sample.catalog "" [] true Sample.ollama_world) in
   screen w' =
     [ UiStatus "Generating scenario...";
       UiWrite "Initialising AI model.";
       UiWrite "Model initialised. Generating scenario, please wait.";
       UiError "An error occurred while generating the scenario: name 'messages' is not defined";
       UiMarkdown (PStr "---") ] ∧
   requests w' = [] ∧
   session_state w' !! "run_id" = Some (PStr "00000000-0000-0000-0000-0000000000ff")) ∧
  (let w' := snd (Sample.run_page Sample.tracing "Azure OpenAI Service" "Finance" "Large"
                    Sample.catalog "" [] true Sample.after_success) in
   screen w' = [UiError "An error occurred: name 'messages' is not defined"] ∧
   requests w' = [] ∧
   session_state w' !! "run_id" = None).
Proof. repeat split; vm_compute; reflexivity. Qed.

(** C9. A scenario is stored from an earlier success, OpenAI is selected,
    Generate is clicked and the backend times out: the stored text and flag
    stay as they were, but nothing is shown again, the screen ends with the
    failure banner and the rule.  Under Azure the same failure is followed
    by the stored scenario and its download button. *)
Theorem openai_failure_does_not_redisplay :
  (let w' := snd (Sample.run_page None "OpenAI API" "Finance" "Large"
                    Sample.catalog "" ["User Execution (T1204)"] true
                    Sample.after_success) in
   session_state w' !! "custom_scenario_text" = Some (PStr "# Earlier scenario") ∧
   session_state w' !! "custom_scenario_generated" = Some (PBool true) ∧
   screen w' =
     [ UiStatus "Generating scenario...";
       UiWrite "Initialising AI model.";
       UiWrite "Model initialised. Generating scenario, please wait.";
       UiError "An error occurred while generating the scenario: Request timed out.";
       UiMarkdown (PStr "---");
       UiInfo "ℹ️ No LangChain API key has been set. This run will not be logged to LangSmith." ]) ∧
  (let w' := snd (Sample.run_page None "Azure OpenAI Service" "Finance" "Large"
                    Sample.catalog "" ["User Execution (T1204)"] true
                    Sample.after_success) in
   session_state w' !! "custom_scenario_text" = Some (PStr "# Earlier scenario") ∧
   session_state w' !! "custom_scenario_generated" = Some (PBool true) ∧
   screen w' =
     [ UiStatus "Generating scenario...";
       UiWrite "Initialising AI model.";
       UiWrite "Model initialised. Generating scenario, please wait.";
       UiError "An error occurred while generating the scenario: Error code: 401";
       UiMarkdown (PStr "---");
       UiMarkdown (PStr "---");
       UiMarkdown (PStr "# Earlier scenario");
       UiDownload "Download Scenario" (PStr "# Earlier scenario")
         "custom_scenario.md" "text/markdown";
       UiInfo "ℹ️ No LangChain API key has been set. This run will not be logged to LangSmith." ]).
Proof. repeat split; vm_compute; reflexivity. Qed.

(** ** Outcomes of a generation *)

Lemma str_truthy_nonempty (s : string) : s ≠ "" → str_truthy s = true.
Proof. intros H. unfold str_truthy. apply String.eqb_neq in H. now rewrite H. Qed.

Lemma bind_ok {A B} (m : M A) (f : A → M B) (w w' : World) (x : A) :
  m w = (inr x, w') → (m ≫= f) w = f x w'.
Proof. intros H. unfold mbind, M_bind. now rewrite H. Qed.

Lemma bind_raise {A B} (m : M A) (f : A → M B) (w w' : World) (e : Exc) :
  m w = (inl e, w') → (m ≫= f) w = (inl e, w').
Proof. intros H. unfold mbind, M_bind. now rewrite H. Qed.

(** Tactics for reading a property off a computed run. *)
Ltac lookups :=
  repeat first [ rewrite lookup_insert_eq | rewrite lookup_insert_ne by discriminate ].

Ltac same := lazymatch goal with |- ?a = ?b => constr_eq a b; reflexivity end.

(** The elements of the literal list [l] that come before its tail [s]. *)
Ltac elements_before l s :=
  lazymatch l with
  | s => constr:(@nil UIEvent)
  | ?x :: ?l' => let r := elements_before l' s in constr:(x :: r)
  end.

Ltac shown_at_end :=
  rewrite <- ?app_assoc; simpl;
  lazymatch goal with
  | |- ∃ before, ?old ++ ?l = ?old ++ before ++ ?s =>
      let pre := elements_before l s in exists pre; reflexivity
  end.

(** Finishing a run: the lookups of stored keys are resolved until the run
    is a value, then each conjunct is read off. *)
Ltac settle :=
  repeat (progress lookups; simpl);
  repeat apply conj; lookups; first [ same | shown_at_end ].

Section GateFacts.
Variable ChatOpenAI : PyVal → PyVal → Exc + OpenAIChat.
Variable AzureOpenAI : option string → option string → option string → Exc + AzureClient.
Variable ChatGoogleGenerativeAI : option string → option string → Exc + GoogleChat.
Variable ChatMistralAI : option string → Exc + MistralChat.
Variable Ollama : option string → Exc + OllamaLLM.
Variable str_message : Message → string.
Variable run_tree : RunTree.
Variable G : Globals.

Ltac gate_case := case_run; simpl; repeat split; reflexivity.

(** X1. The test that heads each branch's chain does gate the call: with
    the deployment name (Azure), the model (Google, Mistral, Ollama) or the
    session's model name (OpenAI) empty, a click on Generate changes nothing
    but the screen: no adapter runs, no request is issued. *)
Theorem empty_model_field_blocks_generation :
  (∀ w, environ w !! "AZURE_DEPLOYMENT" = Some "" →
        only_screen w (snd (dispatch_azure AzureOpenAI str_message run_tree G true w))) ∧
  (∀ w, environ w !! "GOOGLE_MODEL" = Some "" →
        only_screen w (snd (dispatch_google ChatGoogleGenerativeAI run_tree G true w))) ∧
  (∀ w, environ w !! "MISTRAL_MODEL" = Some "" →
        only_screen w (snd (dispatch_mistral ChatMistralAI run_tree G true w))) ∧
  (∀ w, environ w !! "OLLAMA_MODEL" = Some "" →
        only_screen w (snd (dispatch_ollama Ollama run_tree G true w))) ∧
  (∀ w, truthy (default PNone (session_state w !! "model_name")) = false →
        only_screen w (snd (dispatch_openai ChatOpenAI run_tree G true w))).
Proof.
  unfold only_screen.
  split; [| split; [| split; [| split]]]; intros w Hfield.
  - unfold dispatch_azure. unfold_run. simpl.
    destruct (environ w !! "AZURE_OPENAI_API_KEY") as [key|]; simpl; [| auto].
    destruct (str_truthy key); simpl;
      (destruct (environ w !! "AZURE_OPENAI_ENDPOINT") as [endpoint|]; simpl; [| auto]);
      destruct (str_truthy endpoint); simpl; rewrite Hfield; simpl; auto.
  - unfold dispatch_google. unfold_run. simpl.
    destruct (environ w !! "GOOGLE_API_KEY") as [key|]; simpl; [| auto].
    destruct (str_truthy key); simpl; rewrite Hfield; simpl; auto.
  - unfold dispatch_mistral. unfold_run. simpl.
    destruct (environ w !! "MISTRAL_API_KEY") as [key|]; simpl; [| auto].
    destruct (str_truthy key); simpl; rewrite Hfield; simpl; auto.
  - unfold dispatch_ollama. unfold_run. simpl. rewrite Hfield. simpl. auto.
  - unfold dispatch_openai. unfold_run. simpl.
    destruct (truthy (default PNone (session_state w !! "openai_api_key"))); simpl;
      rewrite Hfield; simpl; auto.
Qed.


Ltac unfold_dispatch :=
  unfold dispatch, dispatch_azure, dispatch_google, dispatch_mistral, dispatch_ollama,
    dispatch_openai, show_previous_scenario, previous_scenario_generated, store_scenario.

(** X2. With the industry or the company size empty, the generation block
    changes nothing but the screen, whatever the provider and whether or not
    Generate was clicked: no adapter runs, no request is issued, the session
    state stays as it was. *)
Theorem missing_context_blocks_generation (clicked : bool) (w : World) :
  industry G = "" ∨ company_size G = "" →
  only_screen w (snd (dispatch ChatOpenAI AzureOpenAI ChatGoogleGenerativeAI ChatMistralAI
                        Ollama str_message run_tree G clicked w)).
Proof.
  intros Hctx. unfold only_screen. unfold_dispatch. unfold_run.
  assert (str_truthy (industry G) && str_truthy (company_size G) = false) as Hgate.
  { destruct Hctx as [-> | ->]; [reflexivity | apply andb_false_r]. }
  destruct (str_truthy (industry G)), (str_truthy (company_size G)); try discriminate;
    simpl; destruct clicked; case_run; simpl; repeat split; reflexivity.
Qed.


(** X4. A credential variable that is not in the environment at all: the
    lookup raises inside the generation block, whose handler shows the
    name of the variable in an error box; nothing else happens, and the
    note on logging is skipped. *)
Theorem missing_environment_variable_is_reported (w : World) :
  let w' := snd (dispatch ChatOpenAI AzureOpenAI ChatGoogleGenerativeAI ChatMistralAI
                   Ollama str_message run_tree G true w) in
  (model_provider G = "Azure OpenAI Service" →
   environ w !! "AZURE_OPENAI_API_KEY" = None →
   only_screen w w' ∧
   screen w' = screen w ++ [UiError "An error occurred: 'AZURE_OPENAI_API_KEY'"]) ∧
  (model_provider G = "Google AI API" →
   environ w !! "GOOGLE_API_KEY" = None →
   only_screen w w' ∧
   screen w' = screen w ++ [UiError "An error occurred: 'GOOGLE_API_KEY'"]) ∧
  (model_provider G = "Mistral API" →
   environ w !! "MISTRAL_API_KEY" = None →
   only_screen w w' ∧
   screen w' = screen w ++ [UiError "An error occurred: 'MISTRAL_API_KEY'"]) ∧
  (model_provider G = "Ollama" →
   environ w !! "OLLAMA_MODEL" = None →
   only_screen w w' ∧
   screen w' = screen w ++ [UiError "An error occurred: 'OLLAMA_MODEL'"]).
Proof.
  intros w'. subst w'. unfold only_screen.
  split; [| split; [| split]]; intros Hprov Henv;
    unfold_dispatch; unfold_run; rewrite Hprov; simpl; rewrite Henv; simpl;
    repeat split; reflexivity.
Qed.

End GateFacts.

Section AdapterFrame.
Variable ChatOpenAI : PyVal → PyVal → Exc + OpenAIChat.
Variable AzureOpenAI : option string → option string → option string → Exc + AzureClient.
Variable ChatGoogleGenerativeAI : option string → option string → Exc + GoogleChat.
Variable ChatMistralAI : option string → Exc + MistralChat.
Variable Ollama : option string → Exc + OllamaLLM.
Variable str_message : Message → string.
Variable run_tree : RunTree.
Variable G : Globals.


(** X6. An adapter writes nothing but "run_id": it leaves the environment
    alone and every other key of the session state as it found it, so a
    scenario stored by an earlier success survives any later invocation. *)
Theorem adapters_write_only_run_id :
  (∀ key model ms w k, k ≠ "run_id" →
     let w' := snd (generate_scenario_wrapper ChatOpenAI run_tree G key model ms w) in
     environ w' = environ w ∧ session_state w' !! k = session_state w !! k) ∧
  (∀ ms w k, k ≠ "run_id" →
     let w' := snd (generate_scenario_azure_wrapper AzureOpenAI str_message run_tree G ms w) in
     environ w' = environ w ∧ session_state w' !! k = session_state w !! k) ∧
  (∀ key model ms w k, k ≠ "run_id" →
     let w' := snd (generate_scenario_google_wrapper ChatGoogleGenerativeAI run_tree G
                      key model ms w) in
     environ w' = environ w ∧ session_state w' !! k = session_state w !! k) ∧
  (∀ key model ms w k, k ≠ "run_id" →
     let w' := snd (generate_scenario_mistral_wrapper ChatMistralAI run_tree G
                      key model ms w) in
     environ w' = environ w ∧ session_state w' !! k = session_state w !! k) ∧
  (∀ model w k, k ≠ "run_id" →
     let w' := snd (generate_scenario_ollama_wrapper Ollama run_tree G model w) in
     environ w' = environ w ∧ session_state w' !! k = session_state w !! k).
Proof.
  split; [| split; [| split; [| split]]]; intros; subst w'; split.
  - unfold generate_scenario_wrapper, generate_scenario_traced, generate_scenario.
    unfold_run; destruct (client G); case_run; reflexivity.
  - now apply openai_writes_only_run_id.
  - unfold generate_scenario_azure_wrapper, generate_scenario_azure_traced,
      generate_scenario_azure.
    unfold_run; destruct (client G); case_run; reflexivity.
  - now apply azure_writes_only_run_id.
  - unfold generate_scenario_google_wrapper, generate_scenario_google_traced,
      generate_scenario_google.
    unfold_run; destruct (client G); case_run; reflexivity.
  - now apply google_writes_only_run_id.
  - unfold generate_scenario_mistral_wrapper, generate_scenario_mistral_traced,
      generate_scenario_mistral.
    unfold_run; destruct (client G); case_run; reflexivity.
  - now apply mistral_writes_only_run_id.
  - unfold generate_scenario_ollama_wrapper, generate_scenario_ollama_traced,
      generate_scenario_ollama.
    unfold_run; destruct (client G); case_run; reflexivity.
  - now apply ollama_writes_only_run_id.
Qed.

End AdapterFrame.

Section OutcomeFacts.
Variable ChatOpenAI : PyVal → PyVal → Exc + OpenAIChat.
Variable AzureOpenAI : option string → option string → option string → Exc + AzureClient.
Variable ChatGoogleGenerativeAI : option string → option string → Exc + GoogleChat.
Variable ChatMistralAI : option string → Exc + MistralChat.
Variable Ollama : option string → Exc + OllamaLLM.
Variable str_message : Message → string.
Variable run_tree : RunTree.
Variable G : Globals.

(** *** What a successful adapter call returns and leaves *)

Lemma azure_adapter_success (ms : list Message) (w : World) (llm : AzureClient)
    (wire : list WireMessage) (response : ChatCompletion) :
  AzureOpenAI (environ w !! "AZURE_OPENAI_API_KEY") (environ w !! "AZURE_OPENAI_ENDPOINT")
    (environ w !! "OPENAI_API_VERSION") = inr llm →
  format_messages str_message ms [] = inr wire →
  chat_completions_create llm (environ w !! "AZURE_DEPLOYMENT") wire = inr response →
  generate_scenario_azure_wrapper AzureOpenAI str_message run_tree G ms w =
    (inr (Some response),
     after_generation G run_tree (ReqAzure (environ w !! "AZURE_DEPLOYMENT") wire) w).
Proof.
  intros Hmk Hfmt Hcall.
  unfold generate_scenario_azure_wrapper, generate_scenario_azure_traced,
    generate_scenario_azure, after_generation, with_run_id.
  unfold_run.
  destruct (client G); simpl; rewrite Hmk; simpl; rewrite Hfmt; simpl; rewrite Hcall;
    simpl; rewrite <- !app_assoc; reflexivity.
Qed.


Lemma openai_adapter_success (key model model_name : PyVal) (ms : list Message) (w : World)
    (llm : OpenAIChat) (response : LLMResult) :
  session_state w !! "model_name" = Some model_name →
  ChatOpenAI key model_name = inr llm →
  openai_generate llm [ms] = inr response →
  generate_scenario_wrapper ChatOpenAI run_tree G key model ms w =
    (inr (Some response), after_generation G run_tree (ReqOpenAI [ms]) w).
Proof.
  intros Hmn Hmk Hcall.
  unfold generate_scenario_wrapper, generate_scenario_traced, generate_scenario,
    after_generation, with_run_id.
  unfold_run.
  destruct (client G); rewrite Hmn; simpl; rewrite Hmk; simpl; rewrite Hcall;
    simpl; rewrite <- !app_assoc; reflexivity.
Qed.

Lemma google_adapter_success (key : PyVal) (model : option string) (ms : list Message)
    (w : World) (llm : GoogleChat) (response : AIMessage) :
  ChatGoogleGenerativeAI (environ w !! "GOOGLE_API_KEY") (environ w !! "GOOGLE_MODEL")
    = inr llm →
  google_invoke llm ms = inr response →
  generate_scenario_google_wrapper ChatGoogleGenerativeAI run_tree G key model ms w =
    (inr (Some response), after_generation G run_tree (ReqGoogle ms) w).
Proof.
  intros Hmk Hcall.
  unfold generate_scenario_google_wrapper, generate_scenario_google_traced,
    generate_scenario_google, after_generation, with_run_id.
  unfold_run.
  destruct (client G); simpl; rewrite Hmk; simpl; rewrite Hcall;
    simpl; rewrite <- !app_assoc; reflexivity.
Qed.

Lemma mistral_adapter_success (key : PyVal) (model : option string) (ms : list Message)
    (w : World) (llm : MistralChat) (response : AIMessage) :
  ChatMistralAI (environ w !! "MISTRAL_API_KEY") = inr llm →
  mistral_invoke llm ms (environ w !! "MISTRAL_MODEL") = inr response →
  generate_scenario_mistral_wrapper ChatMistralAI run_tree G key model ms w =
    (inr (Some response),
     after_generation G run_tree (ReqMistral ms (environ w !! "MISTRAL_MODEL")) w).
Proof.
  intros Hmk Hcall.
  unfold generate_scenario_mistral_wrapper, generate_scenario_mistral_traced,
    generate_scenario_mistral, after_generation, with_run_id.
  unfold_run.
  destruct (client G); simpl; rewrite Hmk; simpl; rewrite Hcall;
    simpl; rewrite <- !app_assoc; reflexivity.
Qed.

Lemma ollama_adapter_success (model : option string) (ms : list Message)
    (w : World) (llm : OllamaLLM) (response : string) :
  messages G = Some ms →
  Ollama (environ w !! "OLLAMA_MODEL") = inr llm →
  ollama_invoke llm ms (environ w !! "OLLAMA_MODEL") = inr response →
  generate_scenario_ollama_wrapper Ollama run_tree G model w =
    (inr (Some response),
     after_generation G run_tree (ReqOllama ms (environ w !! "OLLAMA_MODEL")) w).
Proof.
  intros Hms Hmk Hcall.
  unfold generate_scenario_ollama_wrapper, generate_scenario_ollama_traced,
    generate_scenario_ollama, after_generation, with_run_id.
  unfold_run.
  destruct (client G); simpl; rewrite Hmk; simpl; rewrite Hms; simpl; rewrite Hcall;
    simpl; rewrite <- !app_assoc; reflexivity.
Qed.

(** *** What a failed adapter call returns and leaves *)





Lemma lookup_with_run_id (s : gmap string PyVal) (k : string) :
  k ≠ "run_id" → with_run_id G run_tree s !! k = s !! k.
Proof.
  intros Hk. unfold with_run_id. destruct (client G); [| reflexivity].
  apply lookup_insert_ne. congruence.
Qed.

Ltac through_run_id := rewrite ?lookup_with_run_id by discriminate.


(** X8. OpenAI, everything in place and the backend answering with a first
    candidate list that is not empty: the branch issues one request and
    stores and shows the text of the first generation of the first list. *)
Theorem openai_success_stores_first_generation
    (w : World) (model_name : PyVal) (ms : list Message) (llm : OpenAIChat)
    (response : LLMResult) (generation : Generation) (others : list Generation)
    (more : list (list Generation)) :
  session_state w !! "model_name" = Some model_name →
  truthy model_name = true →
  industry G ≠ "" → company_size G ≠ "" →
  messages G = Some ms →
  ChatOpenAI (default PNone (session_state w !! "openai_api_key")) model_name = inr llm →
  openai_generate llm [ms] = inr response →
  generations response = (generation :: others) :: more →
  let run := dispatch_openai ChatOpenAI run_tree G true w in
  fst run = inr tt ∧
  requests (snd run) = requests w ++ [ReqOpenAI [ms]] ∧
  scenario_stored w (snd run) (text generation).
Proof.
  intros Hmn Hm Hi Hc Hms Hmk Hcall Hgen run. subst run.
  apply str_truthy_nonempty in Hi, Hc.
  unfold dispatch_openai, scenario_stored, scenario_shown.
  unfold_run. rewrite Hmn. simpl.
  destruct (truthy (default PNone (session_state w !! "openai_api_key"))); simpl;
    rewrite Hm, Hi, Hc; simpl; rewrite Hms; simpl;
    (erewrite openai_adapter_success by eassumption);
    simpl; rewrite Hgen; simpl; settle.
Qed.

(** X9. Google and Mistral, everything in place and the backend answering:
    the branch issues one request and stores and shows the content of the
    answer. *)
Theorem content_success_stores_answer :
  (∀ (w : World) (key model : string) (ms : list Message) (llm : GoogleChat)
     (response : AIMessage),
     environ w !! "GOOGLE_API_KEY" = Some key →
     environ w !! "GOOGLE_MODEL" = Some model →
     model ≠ "" → industry G ≠ "" → company_size G ≠ "" →
     messages G = Some ms →
     ChatGoogleGenerativeAI (Some key) (Some model) = inr llm →
     google_invoke llm ms = inr response →
     let run := dispatch_google ChatGoogleGenerativeAI run_tree G true w in
     fst run = inr tt ∧
     requests (snd run) = requests w ++ [ReqGoogle ms] ∧
     scenario_stored w (snd run) (ai_content response)) ∧
  (∀ (w : World) (key model : string) (ms : list Message) (llm : MistralChat)
     (response : AIMessage),
     environ w !! "MISTRAL_API_KEY" = Some key →
     environ w !! "MISTRAL_MODEL" = Some model →
     model ≠ "" → industry G ≠ "" → company_size G ≠ "" →
     messages G = Some ms →
     ChatMistralAI (Some key) = inr llm →
     mistral_invoke llm ms (Some model) = inr response →
     let run := dispatch_mistral ChatMistralAI run_tree G true w in
     fst run = inr tt ∧
     requests (snd run) = requests w ++ [ReqMistral ms (Some model)] ∧
     scenario_stored w (snd run) (ai_content response)).
Proof.
  split.
  - intros w key model ms llm response Hkey Hmod Hm Hi Hc Hms Hmk Hcall run. subst run.
    apply str_truthy_nonempty in Hm, Hi, Hc.
    rewrite <- Hkey, <- Hmod in Hmk.
    unfold dispatch_google, store_scenario, scenario_stored, scenario_shown.
    unfold_run. rewrite Hkey. simpl.
    destruct (str_truthy key); simpl; rewrite Hmod; simpl; rewrite Hm, Hi, Hc; simpl;
      rewrite Hms; simpl;
      (erewrite google_adapter_success by eassumption);
      simpl; settle.
  - intros w key model ms llm response Hkey Hmod Hm Hi Hc Hms Hmk Hcall run. subst run.
    apply str_truthy_nonempty in Hm, Hi, Hc.
    rewrite <- Hkey in Hmk. rewrite <- Hmod in Hcall.
    unfold dispatch_mistral, store_scenario, scenario_stored, scenario_shown.
    unfold_run. rewrite Hkey. simpl.
    destruct (str_truthy key); simpl; rewrite Hmod; simpl; rewrite Hm, Hi, Hc; simpl;
      rewrite Hms; simpl;
      (erewrite mistral_adapter_success by eassumption);
      simpl; rewrite ?Hmod; settle.
Qed.

(** X10. Ollama, a model configured and answering: the branch issues one
    request, for the module-level messages, and stores and shows the
    answer as it is. *)
Theorem ollama_success_stores_answer
    (w : World) (model : string) (ms : list Message) (llm : OllamaLLM) (response : string) :
  environ w !! "OLLAMA_MODEL" = Some model →
  model ≠ "" → industry G ≠ "" → company_size G ≠ "" →
  messages G = Some ms →
  Ollama (Some model) = inr llm →
  ollama_invoke llm ms (Some model) = inr response →
  let run := dispatch_ollama Ollama run_tree G true w in
  fst run = inr tt ∧
  requests (snd run) = requests w ++ [ReqOllama ms (Some model)] ∧
  scenario_stored w (snd run) response.
Proof.
  intros Hmod Hm Hi Hc Hms Hmk Hcall run. subst run.
  apply str_truthy_nonempty in Hm, Hi, Hc.
  rewrite <- Hmod in Hmk, Hcall.
  unfold dispatch_ollama, store_scenario, scenario_stored, scenario_shown.
  unfold_run. rewrite Hmod. simpl. rewrite Hm, Hi, Hc. simpl.
  (erewrite ollama_adapter_success by eassumption).
  simpl. rewrite ?Hmod. settle.
Qed.





Ltac flagged_case :=
  unfold after_generation; simpl; through_run_id;
  change ("An error occurred: " +:+ "list index out of range")
    with "An error occurred: list index out of range";
  repeat (progress lookups; simpl; through_run_id);
  repeat apply conj; lookups; through_run_id; first [ same | shown_at_end ].

(** X12. A response without a first candidate (Azure: no choice; OpenAI: no
    candidate list, or an empty first list): the index error is raised after
    the flag was set, so the generation block reports
    "list index out of range", leaves the stored texts alone, and leaves the
    session flagged as generated. *)
Theorem empty_response_sets_flag_only :
  (∀ (w : World) (key endpoint deployment : string) (ms : list Message)
     (llm : AzureClient) (wire : list WireMessage) (response : ChatCompletion),
     model_provider G = "Azure OpenAI Service" →
     environ w !! "AZURE_OPENAI_API_KEY" = Some key →
     environ w !! "AZURE_OPENAI_ENDPOINT" = Some endpoint →
     environ w !! "AZURE_DEPLOYMENT" = Some deployment →
     deployment ≠ "" → industry G ≠ "" → company_size G ≠ "" →
     messages G = Some ms →
     AzureOpenAI (Some key) (Some endpoint) (environ w !! "OPENAI_API_VERSION") = inr llm →
     format_messages str_message ms [] = inr wire →
     chat_completions_create llm (Some deployment) wire = inr response →
     choices response = [] →
     flagged_without_text w
       (snd (dispatch ChatOpenAI AzureOpenAI ChatGoogleGenerativeAI ChatMistralAI
               Ollama str_message run_tree G true w))) ∧
  (∀ (w : World) (model_name : PyVal) (ms : list Message) (llm : OpenAIChat)
     (response : LLMResult),
     model_provider G ≠ "Azure OpenAI Service" → model_provider G ≠ "Google AI API" →
     model_provider G ≠ "Mistral API" → model_provider G ≠ "Ollama" →
     session_state w !! "model_name" = Some model_name →
     truthy model_name = true →
     industry G ≠ "" → company_size G ≠ "" →
     messages G = Some ms →
     ChatOpenAI (default PNone (session_state w !! "openai_api_key")) model_name = inr llm →
     openai_generate llm [ms] = inr response →
     (generations response = [] ∨ ∃ more, generations response = [] :: more) →
     flagged_without_text w
       (snd (dispatch ChatOpenAI AzureOpenAI ChatGoogleGenerativeAI ChatMistralAI
               Ollama str_message run_tree G true w))).
Proof.
  split.
  - intros w key endpoint deployment ms llm wire response
      Hprov Hkey Hend Hdep Hd Hi Hc Hms Hmk Hfmt Hcall Hch.
    apply str_truthy_nonempty in Hd, Hi, Hc.
    rewrite <- Hkey, <- Hend in Hmk. rewrite <- Hdep in Hcall.
    unfold dispatch, dispatch_azure, store_scenario, flagged_without_text.
    unfold_run. rewrite Hprov. simpl. rewrite Hkey. simpl.
    destruct (str_truthy key); simpl; rewrite Hend; simpl;
      destruct (str_truthy endpoint); simpl; rewrite Hdep; simpl; rewrite Hd, Hi, Hc; simpl;
      rewrite Hms; simpl;
      (erewrite azure_adapter_success by eassumption);
      simpl; rewrite Hch; flagged_case.
  - intros w model_name ms llm response H1 H2 H3 H4 Hmn Hm Hi Hc Hms Hmk Hcall Hgen.
    apply String.eqb_neq in H1, H2, H3, H4.
    apply str_truthy_nonempty in Hi, Hc.
    unfold dispatch, dispatch_openai, flagged_without_text.
    unfold_run. rewrite H1, H2, H3, H4. simpl. rewrite Hmn. simpl.
    destruct (truthy (default PNone (session_state w !! "openai_api_key"))); simpl;
      rewrite Hm, Hi, Hc; simpl; rewrite Hms; simpl;
      (erewrite openai_adapter_success by eassumption);
      simpl; destruct Hgen as [-> | [more ->]]; flagged_case.
Qed.

End OutcomeFacts.

(** ** The prompt block and the whole page *)

(** What the prompt block binds, in closed form. *)
Lemma build_messages_value
    (selected_techniques : list string)
    (selected_template industry company_size : string) (w : World) :
  ∃ user_text,
    build_messages selected_techniques selected_template industry company_size w =
      (inr match selected_techniques with
           | [] => None
           | _ => Some [SystemMessage system_template; HumanMessage user_text]
           end, w).
Proof.
  unfold build_messages, try_except.
  destruct selected_techniques as [|t ts]; [exists ""; reflexivity |].
  cbn [List.length Nat.ltb Nat.leb].
  unfold mbind, M_bind, lift. rewrite format_prompt_eq. eexists. reflexivity.
Qed.

(** X13. The prompt block cannot fail: whatever the industry, the company
    size, the template and the technique names contain (braces and quotes
    included), it shows no error and leaves the world as it is, and it binds
    [messages], to a system and a user message, exactly when at least one
    technique is selected. *)
Theorem build_messages_binds_iff_selected
    (selected_techniques : list string)
    (selected_template industry company_size : string) (w : World) :
  snd (build_messages selected_techniques selected_template industry company_size w) = w ∧
  (selected_techniques = [] →
   fst (build_messages selected_techniques selected_template industry company_size w)
     = inr None) ∧
  (selected_techniques ≠ [] →
   ∃ user_text,
     fst (build_messages selected_techniques selected_template industry company_size w)
       = inr (Some [SystemMessage system_template; HumanMessage user_text])).
Proof.
  destruct (build_messages_value selected_techniques selected_template industry
              company_size w) as (user_text & ->).
  split; [reflexivity |]. split.
  - intros ->. reflexivity.
  - intros Hne. exists user_text. destruct selected_techniques; [congruence | reflexivity].
Qed.

(** X14. The rendered prompt always converts for Azure: its two messages go
    on the wire as "system" and "user" with their texts unchanged, so the
    conversion loop never meets an unsupported message on the page's own
    prompt. *)
Theorem rendered_prompt_converts_for_azure
    (str_message : Message → string) (selected_techniques : list string)
    (selected_template industry company_size : string) (w : World) :
  selected_techniques ≠ [] →
  ∃ ms user_text,
    fst (build_messages selected_techniques selected_template industry company_size w)
      = inr (Some ms) ∧
    format_messages str_message ms [] =
      inr [ {| wire_role := "system"; wire_content := system_template |};
            {| wire_role := "user"; wire_content := user_text |} ].
Proof.
  intros Hne.
  destruct (build_messages_value selected_techniques selected_template industry
              company_size w) as (user_text & ->).
  destruct selected_techniques as [|t ts]; [congruence |].
  eexists _, user_text. split; reflexivity.
Qed.

Lemma build_messages_run
    (selected_techniques : list string)
    (selected_template industry company_size : string) (w : World) :
  ∃ m, build_messages selected_techniques selected_template industry company_size w
         = (inr m, w) ∧
       (selected_techniques = [] → m = None).
Proof.
  destruct (build_messages_value selected_techniques selected_template industry
              company_size w) as (user_text & ->).
  eexists. split; [reflexivity |]. intros ->. reflexivity.
Qed.

Lemma template_selection_keeps_requests (techniques_df : list TechniqueRow)
    (template : string) (w : World) :
  requests (snd (template_selection techniques_df template w)) = requests w ∧
  screen (snd (template_selection techniques_df template w)) = screen w.
Proof.
  unfold template_selection.
  destruct (dict_get template incident_response_templates); [| split; reflexivity].
  destruct techniques_df; split; reflexivity.
Qed.

Section PageFacts.
Variable ChatOpenAI : PyVal → PyVal → Exc + OpenAIChat.
Variable AzureOpenAI : option string → option string → option string → Exc + AzureClient.
Variable ChatGoogleGenerativeAI : option string → option string → Exc + GoogleChat.
Variable ChatMistralAI : option string → Exc + MistralChat.
Variable Ollama : option string → Exc + OllamaLLM.
Variable str_message : Message → string.
Variable run_tree : RunTree.

Variable client : option Client.
Variable model_provider industry company_size : string.
Variable techniques_df : list TechniqueRow.
Variable selected_template : string.
Variable chosen : list string.
Variable clicked : bool.

Let run_page :=
  page ChatOpenAI AzureOpenAI ChatGoogleGenerativeAI ChatMistralAI Ollama str_message
    run_tree client model_provider industry company_size techniques_df selected_template
    chosen clicked.

(** A run of the page, cut at the template step: either that step raises
    and the run ends there, or the run is the generation block started in
    the world the template step left, under a namespace whose [messages] is
    what the prompt block bound. *)
Lemma page_cases (w : World) :
  (∃ e w', fst (run_page w) = inl e ∧ snd (run_page w) = w' ∧
           requests w' = requests w ∧ screen w' = screen w ∧
           techniques_df = [] ∧
           is_Some (dict_get selected_template incident_response_templates) ∧
           e = KeyError "Display Name") ∨
  (∃ w2 m,
     requests w2 = requests w ∧ screen w2 = screen w ∧
     (techniques_for_prompt techniques_df chosen = [] → m = None) ∧
     run_page w =
       dispatch ChatOpenAI AzureOpenAI ChatGoogleGenerativeAI ChatMistralAI Ollama
         str_message run_tree
         (Build_Globals client model_provider industry company_size techniques_df
            selected_template (techniques_for_prompt techniques_df chosen) m)
         clicked w2).
Proof.
  subst run_page. unfold page.
  rewrite (bind_ok (session_has "custom_scenario_generated") _ w w _ eq_refl).
  assert (∃ w1, ((if negb (bool_decide (is_Some (session_state w !!
                                                   "custom_scenario_generated")))
                  then session_set "custom_scenario_generated" (PBool false)
                  else mret tt) w = (inr tt, w1)) ∧
                requests w1 = requests w ∧ screen w1 = screen w)
    as (w1 & Hflag & Hr1 & Hs1).
  { destruct (bool_decide (is_Some (session_state w !! "custom_scenario_generated")));
      simpl; eexists; (split; [reflexivity |]); split; reflexivity. }
  rewrite (bind_ok _ _ _ _ _ Hflag).
  destruct (str_truthy selected_template) eqn:Htpl.
  - pose proof (template_selection_keeps_requests techniques_df selected_template w1)
      as [Hr2 Hs2].
    destruct (template_selection techniques_df selected_template w1) as [[e|[]] w2] eqn:Hsel.
    + left. exists e, w2. rewrite (bind_raise _ _ _ _ _ Hsel). simpl in *.
      repeat split; try congruence.
      all: revert Hsel; unfold template_selection;
        destruct (dict_get selected_template incident_response_templates) eqn:Hd;
        [| discriminate]; destruct techniques_df; try discriminate.
      * reflexivity.
      * eauto.
      * unfold_run. simpl. congruence.
    + right. rewrite (bind_ok _ _ _ _ _ Hsel). simpl in *.
      destruct (build_messages_run (techniques_for_prompt techniques_df chosen)
                  selected_template industry company_size w2) as (m & Hm & Hnone).
      exists w2, m. unfold techniques_for_prompt in *.
      rewrite (bind_ok _ _ _ _ _ Hm).
      repeat split; try congruence. exact Hnone.
  - right.
    rewrite (bind_ok (mret tt) _ w1 w1 tt eq_refl).
    destruct (build_messages_run (techniques_for_prompt techniques_df chosen)
                selected_template industry company_size w1) as (m & Hm & Hnone).
    exists w1, m. unfold techniques_for_prompt in *.
    rewrite (bind_ok _ _ _ _ _ Hm).
    repeat split; try congruence. exact Hnone.
Qed.

End PageFacts.

Section PageTheorems.
Variable ChatOpenAI : PyVal → PyVal → Exc + OpenAIChat.
Variable AzureOpenAI : option string → option string → option string → Exc + AzureClient.
Variable ChatGoogleGenerativeAI : option string → option string → Exc + GoogleChat.
Variable ChatMistralAI : option string → Exc + MistralChat.
Variable Ollama : option string → Exc + OllamaLLM.
Variable str_message : Message → string.
Variable run_tree : RunTree.

(** X15. A run with no technique for the prompt, because none is chosen or
    because the catalog has no rows: whatever the provider, the credentials
    and the clicks, no request reaches a backend. *)
Theorem page_without_techniques_issues_no_request
    (client : option Client) (model_provider industry company_size : string)
    (techniques_df : list TechniqueRow) (selected_template : string)
    (chosen : list string) (clicked : bool) (w : World) :
  techniques_for_prompt techniques_df chosen = [] →
  requests (snd (page ChatOpenAI AzureOpenAI ChatGoogleGenerativeAI ChatMistralAI Ollama
                   str_message run_tree client model_provider industry company_size
                   techniques_df selected_template chosen clicked w)) = requests w.
Proof.
  intros Hnone.
  destruct (page_cases ChatOpenAI AzureOpenAI ChatGoogleGenerativeAI ChatMistralAI Ollama
              str_message run_tree client model_provider industry company_size
              techniques_df selected_template chosen clicked w)
    as [(e & w' & _ & Hw' & Hr & _) | (w2 & m & Hr & _ & Hm & Hrun)].
  - now rewrite Hw'.
  - rewrite Hrun, <- Hr. apply unbound_messages_no_request. simpl. auto.
Qed.

(** A template of the dictionary over a catalog without rows: the column
    lookup of the template step raises. *)
Lemma page_template_over_empty_catalog
    (client : option Client) (model_provider industry company_size : string)
    (selected_template : string) (chosen : list string) (clicked : bool) (w : World) :
  is_Some (dict_get selected_template incident_response_templates) →
  fst (page ChatOpenAI AzureOpenAI ChatGoogleGenerativeAI ChatMistralAI Ollama
         str_message run_tree client model_provider industry company_size
         [] selected_template chosen clicked w) = inl (KeyError "Display Name").
Proof.
  intros [techniques Htpl]. unfold page.
  rewrite (bind_ok (session_has "custom_scenario_generated") _ w w _ eq_refl).
  assert (str_truthy selected_template = true) as ->.
  { destruct selected_template; [discriminate Htpl | reflexivity]. }
  destruct (bool_decide (is_Some (session_state w !! "custom_scenario_generated")));
    cbn [negb].
  - rewrite (bind_ok (mret tt) _ w w tt eq_refl).
    erewrite bind_raise; [reflexivity |].
    unfold template_selection. rewrite Htpl. reflexivity.
  - erewrite (bind_ok (session_set _ _) _ w _ tt eq_refl).
    erewrite bind_raise; [reflexivity |].
    unfold template_selection. rewrite Htpl. reflexivity.
Qed.


(** X17. When the catalog cannot be loaded, the loader prints the error and
    the page goes on with a frame without rows: no run of the page then
    issues a request, and selecting a template of the dictionary ends the
    run with KeyError 'Display Name'. *)
Theorem failed_catalog_load_disables_generation
    (e : Exc) (client : option Client) (model_provider industry company_size : string)
    (selected_template : string) (chosen : list string) (clicked : bool) (w : World) :
  let techniques_df := fst (load_techniques (inl e)) in
  let run := page ChatOpenAI AzureOpenAI ChatGoogleGenerativeAI ChatMistralAI Ollama
               str_message run_tree client model_provider industry company_size
               techniques_df selected_template chosen clicked w in
  snd (load_techniques (inl e)) = Some ("Error in load_techniques: " +:+ str_exc e) ∧
  requests (snd run) = requests w ∧
  (fst run = inl (KeyError "Display Name") ↔
   is_Some (dict_get selected_template incident_response_templates)).
Proof.
  simpl. split; [reflexivity |].
  destruct (page_cases ChatOpenAI AzureOpenAI ChatGoogleGenerativeAI ChatMistralAI Ollama
              str_message run_tree client model_provider industry company_size
              [] selected_template chosen clicked w)
    as [(e' & w' & He & Hw' & Hr & Hs & Hdf & Htpl & ->) | (w2 & m & Hr & Hs & Hm & Hrun)].
  - split; [now rewrite Hw' |]. split; [intros _; exact Htpl | intros _; exact He].
  - split.
    + rewrite Hrun, <- Hr. apply unbound_messages_no_request. simpl. auto.
    + split.
      * intros Hraise. rewrite Hrun, dispatch_never_raises in Hraise. discriminate.
      * apply page_template_over_empty_catalog.
Qed.

End PageTheorems.

(** ** The technique catalog *)

Lemma elem_of_append_references (technique : Technique)
    (references : list (gmap string string)) (techniques_list : list TechniqueRow)
    (row : TechniqueRow) :
  row ∈ append_references technique references techniques_list ↔
  row ∈ techniques_list ∨
  ∃ reference external_id,
    reference ∈ references ∧ reference !! "external_id" = Some external_id ∧
    row = technique_row technique external_id.
Proof.
  revert techniques_list.
  induction references as [|reference rest IH]; intros techniques_list; simpl.
  - split; [auto |]. intros [H | (reference & eid & Hin & _)]; [exact H |].
    inversion Hin.
  - destruct (reference !! "external_id") as [eid|] eqn:Hid; rewrite IH.
    + rewrite elem_of_app, list_elem_of_singleton. split.
      * intros [[H | ->] | (r & e & Hin & Hr & ->)]; [auto | |].
        -- right. exists reference, eid. split; [left | auto].
        -- right. exists r, e. split; [right; exact Hin | auto].
      * intros [H | (r & e & Hin & Hr & ->)]; [auto |].
        apply elem_of_cons in Hin as [-> | Hin].
        -- left. right. congruence.
        -- right. eauto.
    + split.
      * intros [H | (r & e & Hin & Hr & ->)]; [auto |].
        right. exists r, e. split; [right; exact Hin | auto].
      * intros [H | (r & e & Hin & Hr & ->)]; [auto |].
        apply elem_of_cons in Hin as [-> | Hin]; [congruence |].
        right. eauto.
Qed.

Lemma elem_of_append_techniques (techniques : list Technique)
    (techniques_list : list TechniqueRow) (row : TechniqueRow) :
  row ∈ append_techniques techniques techniques_list ↔
  row ∈ techniques_list ∨
  ∃ technique reference external_id,
    technique ∈ techniques ∧ reference ∈ external_references technique ∧
    reference !! "external_id" = Some external_id ∧
    row = technique_row technique external_id.
Proof.
  revert techniques_list.
  induction techniques as [|technique rest IH]; intros techniques_list; simpl.
  - split; [auto |]. intros [H | (t & _ & _ & Hin & _)]; [exact H | inversion Hin].
  - rewrite IH, elem_of_append_references. split.
    + intros [[H | (r & e & Hin & Hr & ->)] | (t & r & e & Ht & Hin & Hr & ->)]; [auto | |].
      * right. exists technique, r, e. split; [left | auto].
      * right. exists t, r, e. split; [right; exact Ht | auto].
    + intros [H | (t & r & e & Ht & Hin & Hr & ->)]; [auto |].
      apply elem_of_cons in Ht as [-> | Ht].
      * left. right. eauto.
      * right. eauto 10.
Qed.

(** X18. The loaded catalog has a row for exactly the pairs of a technique
    and one of its references that carries an external id, and the display
    name of every row is the technique's name followed by the external id
    in parentheses. *)
Theorem load_techniques_rows (techniques : list Technique) :
  let techniques_df := fst (load_techniques (inr techniques)) in
  (∀ row,
     row ∈ techniques_df ↔
     ∃ technique reference external_id,
       technique ∈ techniques ∧ reference ∈ external_references technique ∧
       reference !! "external_id" = Some external_id ∧
       row = technique_row technique external_id) ∧
  Forall (λ row, display_name row =
                 technique_name row +:+ " (" +:+ external_id row +:+ ")") techniques_df.
Proof.
  simpl. split.
  - intros row. rewrite elem_of_append_techniques. split.
    + intros [H | H]; [inversion H | exact H].
    + auto.
  - apply Forall_forall. intros row Hrow.
    apply elem_of_append_techniques in Hrow as [H | (t & r & e & _ & _ & _ & ->)];
      [inversion H | reflexivity].
Qed.

(** ** The options of the multi-select *)

Lemma elem_of_unique_from (seen names : list string) (name : string) :
  name ∈ unique_from seen names ↔ name ∈ names ∧ name ∉ seen.
Proof.
  revert seen. induction names as [|first rest IH]; intros seen; simpl.
  - split; [intros H; inversion H | intros [H _]; inversion H].
  - destruct (decide (first ∈ seen)) as [Hseen | Hnew].
    + rewrite IH, elem_of_cons. split.
      * intros [H1 H2]. auto.
      * intros [[-> | H1] H2]; [contradiction | auto].
    + rewrite elem_of_cons, IH, !elem_of_cons. split.
      * intros [-> | [H1 H2]]; [auto |]. split; [auto |]. intros H. apply H2. auto.
      * intros [[-> | H1] H2]; [auto |].
        destruct (decide (name = first)) as [-> | Hne]; [auto |].
        right. split; [exact H1 |]. intros [H | H]; [congruence | contradiction].
Qed.

Lemma NoDup_unique_from (seen names : list string) : NoDup (unique_from seen names).
Proof.
  revert seen. induction names as [|first rest IH]; intros seen; simpl.
  - constructor.
  - destruct (decide (first ∈ seen)); [apply IH |].
    constructor; [| apply IH].
    rewrite elem_of_unique_from. intros [_ H]. apply H. left.
Qed.

#[local] Instance str_le_total : Total str_le.
Proof. intros a b. apply String.leb_total. Qed.

Lemma multiselect_options_names (techniques_df : list TechniqueRow) :
  techniques_df ≠ [] →
  multiselect_options techniques_df =
    inr (merge_sort str_le (unique_from [] (display_name <$> techniques_df))).
Proof. destruct techniques_df; [congruence | reflexivity]. Qed.

Lemma elem_of_sorted_unique (names : list string) (name : string) :
  name ∈ merge_sort str_le (unique_from [] names) ↔ name ∈ names.
Proof.
  rewrite merge_sort_Permutation, elem_of_unique_from.
  split; [tauto |]. intros H. split; [exact H |]. intros Hnil. inversion Hnil.
Qed.

(** X19. For a catalog with rows, the options offered by the multi-select
    are the display names of the catalog, each once, in ascending order. *)
Theorem multiselect_options_sorted_names (techniques_df : list TechniqueRow) :
  techniques_df ≠ [] →
  ∃ options,
    multiselect_options techniques_df = inr options ∧
    Sorted str_le options ∧ NoDup options ∧
    ∀ name, name ∈ options ↔ name ∈ display_name <$> techniques_df.
Proof.
  intros Hdf. rewrite (multiselect_options_names _ Hdf).
  eexists. split; [reflexivity |]. split; [| split].
  - apply Sorted_merge_sort, _.
  - rewrite merge_sort_Permutation. apply NoDup_unique_from.
  - apply elem_of_sorted_unique.
Qed.

(** X20. A template never produces a default that the multi-select does not
    offer: for a catalog with rows, every name the template step stores
    under "selected_techniques" is one of the options computed from the
    same catalog. *)
Theorem template_defaults_are_options
    (techniques_df : list TechniqueRow) (template : string)
    (template_techniques : list string) (w : World) :
  techniques_df ≠ [] →
  dict_get template incident_response_templates = Some template_techniques →
  ∃ selected options,
    session_state (snd (template_selection techniques_df template w))
      !! "selected_techniques" = Some (PList selected) ∧
    multiselect_options techniques_df = inr options ∧
    selected ⊆ options.
Proof.
  intros Hdf Htpl.
  exists (display_name <$> rows_isin template_techniques techniques_df),
    (merge_sort str_le (unique_from [] (display_name <$> techniques_df))).
  split; [| split; [exact (multiselect_options_names _ Hdf) |]].
  - unfold template_selection. rewrite Htpl.
    destruct techniques_df as [|row rest]; [congruence |].
    unfold_run. cbn [column_display_name]. simpl. apply lookup_insert_eq.
  - intros name Hname. apply elem_of_sorted_unique.
    rewrite fmap_rows_isin in Hname. apply list_elem_of_filter in Hname. tauto.
Qed.

(** ** The top of the script *)

Lemma sync_environ_keeps (settings : list (string * string))
    (session_state : gmap string PyVal) (environ environ' : gmap string string)
    (var : string) :
  var ∉ settings.*2 →
  sync_environ settings session_state environ = inr environ' →
  environ' !! var = environ !! var.
Proof.
  revert environ. induction settings as [|[k v] rest IH]; intros environ Hout Hsync.
  - simpl in Hsync. congruence.
  - simpl in Hsync, Hout. apply not_elem_of_cons in Hout as [Hne Hout].
    destruct (session_state !! k) as [[| |s|]|]; try discriminate.
    + rewrite (IH _ Hout Hsync). apply lookup_insert_ne. congruence.
    + apply (IH _ Hout Hsync).
Qed.

Lemma sync_environ_value (settings : list (string * string))
    (session_state : gmap string PyVal) (environ environ' : gmap string string)
    (k var s : string) :
  NoDup settings.*2 → (k, var) ∈ settings → session_state !! k = Some (PStr s) →
  sync_environ settings session_state environ = inr environ' →
  environ' !! var = Some s.
Proof.
  revert environ. induction settings as [|[k0 var0] rest IH]; intros environ Hnd Hin Hk Hsync.
  - inversion Hin.
  - simpl in Hnd. apply NoDup_cons in Hnd as [Hvar Hnd]. simpl in Hsync.
    apply elem_of_cons in Hin as [Heq | Hin].
    + injection Heq as <- <-. rewrite Hk in Hsync.
      rewrite (sync_environ_keeps _ _ _ _ _ Hvar Hsync). apply lookup_insert_eq.
    + destruct (session_state !! k0) as [[| |s0|]|]; try discriminate; eauto.
Qed.


Lemma session_settings_vars_NoDup : NoDup session_settings.*2.
Proof. apply (bool_decide_unpack (NoDup session_settings.*2)). vm_compute. exact I. Qed.




(** ** The settings and the client at the top of the script *)

Section TopFacts.
Variable ChatOpenAI : PyVal → PyVal → Exc + OpenAIChat.
Variable AzureOpenAI : option string → option string → option string → Exc + AzureClient.
Variable ChatGoogleGenerativeAI : option string → option string → Exc + GoogleChat.
Variable ChatMistralAI : option string → Exc + MistralChat.
Variable Ollama : option string → Exc + OllamaLLM.
Variable str_message : Message → string.
Variable run_tree : RunTree.
Variable G : Globals.
Variable create_feedback : Client → PyVal → string → nat → string → Exc + FeedbackRecord.

(** X23. The deployment typed into the session is the model of the Azure
    request, whatever the environment held before: after the assignments at
    the top of the script, a generation that succeeds sends its one request
    to the deployment stored under "azure_deployment". *)
Theorem session_deployment_is_request_model
    (w w' : World) (deployment : string) (ms : list Message)
    (llm : AzureClient) (wire : list WireMessage) (response : ChatCompletion) :
  session_state w !! "azure_deployment" = Some (PStr deployment) →
  sync_session_environ w = inr w' →
  AzureOpenAI (environ w' !! "AZURE_OPENAI_API_KEY") (environ w' !! "AZURE_OPENAI_ENDPOINT")
    (environ w' !! "OPENAI_API_VERSION") = inr llm →
  format_messages str_message ms [] = inr wire →
  chat_completions_create llm (Some deployment) wire = inr response →
  let run := generate_scenario_azure_wrapper AzureOpenAI str_message run_tree G ms w' in
  fst run = inr (Some response) ∧
  requests (snd run) = requests w ++ [ReqAzure (Some deployment) wire].
Proof.
  intros Hdep Hsync Hmk Hfmt Hcall run. subst run.
  unfold sync_session_environ in Hsync.
  destruct (sync_environ session_settings (session_state w) (environ w))
    as [[e environ']|environ'] eqn:Henv; [discriminate |].
  injection Hsync as <-.
  assert (environ' !! "AZURE_DEPLOYMENT" = Some deployment) as Hvar.
  { apply (sync_environ_value session_settings (session_state w) (environ w) environ'
             "azure_deployment" "AZURE_DEPLOYMENT" deployment
             session_settings_vars_NoDup); [| exact Hdep | exact Henv].
    unfold session_settings. right; right; left. }
  cbn [environ] in Hmk. 
  erewrite azure_adapter_success; cbn [environ]; rewrite ?Hvar; eauto.
Qed.


End TopFacts.

(** ** The feedback section *)

Section FeedbackFacts.
Variable ChatOpenAI : PyVal → PyVal → Exc + OpenAIChat.
Variable AzureOpenAI : option string → option string → option string → Exc + AzureClient.
Variable ChatGoogleGenerativeAI : option string → option string → Exc + GoogleChat.
Variable ChatMistralAI : option string → Exc + MistralChat.
Variable Ollama : option string → Exc + OllamaLLM.
Variable str_message : Message → string.
Variable create_feedback : Client → PyVal → string → nat → string → Exc + FeedbackRecord.

(** The generation block of the page is the guarded body. *)
Lemma dispatch_guards_body (run_tree : RunTree) (G : Globals) (clicked : bool) :
  dispatch ChatOpenAI AzureOpenAI ChatGoogleGenerativeAI ChatMistralAI Ollama str_message
    run_tree G clicked =
  try_except
    (dispatch_body ChatOpenAI AzureOpenAI ChatGoogleGenerativeAI ChatMistralAI Ollama
       str_message run_tree G clicked)
    (λ e, st_error ("An error occurred: " +:+ str_exc e)).
Proof. reflexivity. Qed.

(** The section draws on the screen and touches nothing else of the world
    of the page. *)
Lemma feedback_section_page_world (client : option Client) (thumbs_up thumbs_down : bool)
    (s : FeedbackState) :
  let w' := page_world (feedback_section create_feedback client thumbs_up thumbs_down s) in
  environ w' = environ (page_world s) ∧
  session_state w' = session_state (page_world s) ∧
  requests w' = requests (page_world s) ∧
  ∃ more, screen w' = screen (page_world s) ++ more.
Proof.
  unfold feedback_section, submit_feedback. simpl.
  destruct (truthy _); [| simpl; eauto 10].
  destruct client as [c|]; [| simpl; eauto 10]. simpl.
  destruct thumbs_up, thumbs_down; simpl;
    repeat match goal with
    | |- context [if truthy ?v then _ else _] => destruct (truthy v); simpl
    | |- context [match create_feedback ?a ?b ?c ?d ?e with _ => _ end] =>
        destruct (create_feedback a b c d e); simpl
    end;
    rewrite <- ?app_assoc; eauto 10.
Qed.

(** X25. Rating never disturbs the page: whatever thumbs are reported, the
    whole block issues the backend requests of the generation block alone
    and leaves its environment and session entries; on the screen it only
    adds to what the generation block drew. *)
Theorem feedback_leaves_generation_untouched
    (run_tree : RunTree) (G : Globals) (clicked thumbs_up thumbs_down : bool)
    (s : FeedbackState) :
  let w := snd (dispatch ChatOpenAI AzureOpenAI ChatGoogleGenerativeAI ChatMistralAI Ollama
                  str_message run_tree G clicked (page_world s)) in
  let w' := page_world (generation_block create_feedback ChatOpenAI AzureOpenAI
                          ChatGoogleGenerativeAI ChatMistralAI Ollama str_message
                          run_tree G clicked thumbs_up thumbs_down s) in
  requests w' = requests w ∧ session_state w' = session_state w ∧
  environ w' = environ w ∧ ∃ more, screen w' = screen w ++ more.
Proof.
  rewrite dispatch_guards_body. unfold generation_block, try_except.
  destruct (dispatch_body _ _ _ _ _ _ _ _ _ _) as [[e|[]] w1].
  - simpl. repeat apply conj; try reflexivity. exists []. now rewrite app_nil_r.
  - cbn [snd].
    destruct (feedback_section_page_world (client G) thumbs_up thumbs_down
                {| page_world := w1; session_feedback := session_feedback s;
                   feedback_placeholder := feedback_placeholder s;
                   feedback_calls := feedback_calls s |}) as (He & Hs & Hr & Hm).
    auto.
Qed.

(** X26. Feedback is sent only when all of this holds: the page has a
    client, the session is flagged as holding a generated scenario, a run id
    is stored, and a thumb is reported. *)
Theorem feedback_needs_client_scenario_and_run_id
    (client : option Client) (thumbs_up thumbs_down : bool) (s : FeedbackState) :
  feedback_calls (feedback_section create_feedback client thumbs_up thumbs_down s)
    ≠ feedback_calls s →
  is_Some client ∧ truthy (scenario_flag s) = true ∧ truthy (stored_run_id s) = true ∧
  (thumbs_up = true ∨ thumbs_down = true).
Proof.
  intros H. unfold scenario_flag, stored_run_id.
  destruct (truthy (default (PBool false)
                      (session_state (page_world s) !! "custom_scenario_generated")))
    eqn:Hflag; cycle 1.
  { exfalso. apply H. unfold feedback_section. simpl. rewrite Hflag. simpl. same. }
  destruct client as [c|]; cycle 1.
  { exfalso. apply H. unfold feedback_section. simpl. rewrite Hflag. simpl. same. }
  destruct (truthy (default PNone (session_state (page_world s) !! "run_id")))
    eqn:Hrun; cycle 1.
  { exfalso. apply H. unfold feedback_section, submit_feedback. simpl. rewrite Hflag. simpl.
    destruct thumbs_up, thumbs_down; simpl; rewrite ?Hrun; simpl; rewrite ?Hrun; simpl; same. }
  split; [eexists; reflexivity |].
  destruct thumbs_up; [auto |]. destruct thumbs_down; [auto |].
  exfalso. apply H. unfold feedback_section. simpl. rewrite Hflag. simpl. same.
Qed.

(** X27. One thumb, with a client, a flagged session and a stored run id:
    exactly one feedback call is made, for the stored run id, as
    "positive" with score 1 for the thumb up and as "negative" with score 0
    for the thumb down, each with an empty comment.  When the call returns,
    the id of the record and the score are kept in the session and the
    placeholder thanks the user; when it raises, the placeholder shows the
    error and the session keeps the feedback it had. *)
Theorem thumb_submits_feedback_for_stored_run
    (c : Client) (thumbs_up : bool) (s : FeedbackState) :
  truthy (scenario_flag s) = true → truthy (stored_run_id s) = true →
  let key := if thumbs_up then "positive" else "negative" in
  let score := if thumbs_up then 1 else 0 in
  let s' := feedback_section create_feedback (Some c) thumbs_up (negb thumbs_up) s in
  feedback_calls s' =
    feedback_calls s ++
      [{| feedback_run_id := stored_run_id s; feedback_key := key;
          feedback_score := score; feedback_comment := "" |}] ∧
  match create_feedback c (stored_run_id s) key score "" with
  | inr feedback_record =>
      session_feedback s' = Some (str_uuid (feedback_record_id feedback_record), score) ∧
      feedback_placeholder s' = PhSuccess "Feedback submitted. Thank you."
  | inl e =>
      session_feedback s' = session_feedback s ∧
      feedback_placeholder s' =
        PhError ("An error occurred while creating feedback: " +:+ str_exc e)
  end.
Proof.
  unfold scenario_flag, stored_run_id. intros Hflag Hrun.
  unfold feedback_section, submit_feedback. simpl. rewrite Hflag.
  destruct thumbs_up; simpl; rewrite Hrun;
    match goal with
    | |- context [create_feedback ?a ?b ?c ?d ?e] => destruct (create_feedback a b c d e)
    end; simpl; auto.
Qed.

(** X28. A thumb without a stored run id sends nothing: the placeholder asks
    the user to generate a scenario first. *)
Theorem thumb_without_run_id_warns
    (c : Client) (thumbs_up thumbs_down : bool) (s : FeedbackState) :
  truthy (scenario_flag s) = true → truthy (stored_run_id s) = false →
  thumbs_up = true ∨ thumbs_down = true →
  let s' := feedback_section create_feedback (Some c) thumbs_up thumbs_down s in
  feedback_calls s' = feedback_calls s ∧ session_feedback s' = session_feedback s ∧
  feedback_placeholder s' = PhWarning "No run ID found. Please generate a scenario first.".
Proof.
  unfold scenario_flag, stored_run_id. intros Hflag Hrun Hthumb.
  unfold feedback_section, submit_feedback. simpl. rewrite Hflag.
  destruct thumbs_up, thumbs_down; simpl; rewrite ?Hrun; simpl; rewrite ?Hrun; auto.
  destruct Hthumb; discriminate.
Qed.


(** *** Rating after a generation *)

(** A run in which Generate is not clicked, over a session that has the
    flag: the body ends normally and only draws. *)
Lemma unclicked_body_only_draws (run_tree : RunTree) (G : Globals) (w : World) :
  is_Some (session_state w !! "custom_scenario_generated") →
  ∃ w', dispatch_body ChatOpenAI AzureOpenAI ChatGoogleGenerativeAI ChatMistralAI Ollama
          str_message run_tree G false w = (inr tt, w') ∧
        session_state w' = session_state w ∧ requests w' = requests w ∧
        environ w' = environ w.
Proof.
  intros [generated Hflag].
  unfold dispatch_body, dispatch_azure, dispatch_google, dispatch_mistral, dispatch_ollama,
    dispatch_openai, show_previous_scenario, previous_scenario_generated.
  unfold_run.
  destruct (String.eqb (model_provider G) "Azure OpenAI Service");
    [destruct (client G); eexists; repeat apply conj; reflexivity |].
  destruct (String.eqb (model_provider G) "Google AI API");
    [destruct (client G); eexists; repeat apply conj; reflexivity |].
  destruct (String.eqb (model_provider G) "Mistral API");
    [destruct (client G); eexists; repeat apply conj; reflexivity |].
  destruct (String.eqb (model_provider G) "Ollama");
    [destruct (client G); eexists; repeat apply conj; reflexivity |].
  destruct (session_state w !! "custom_scenario_text") as [custom_scenario_text|] eqn:Htext;
    simpl; [rewrite Hflag; simpl; destruct (truthy generated); simpl;
           repeat (rewrite Htext; simpl) |];
    destruct (client G); simpl; eexists; repeat apply conj; reflexivity.
Qed.

(** The Ollama adapter returns whatever happens in it. *)
Lemma ollama_adapter_returns (run_tree : RunTree) (G : Globals) (model : option string)
    (w : World) :
  ∃ response w',
    generate_scenario_ollama_wrapper Ollama run_tree G model w = (inr response, w').
Proof.
  unfold generate_scenario_ollama_wrapper, generate_scenario_ollama_traced,
    generate_scenario_ollama.
  unfold_run. destruct (client G); case_run; eauto.
Qed.

(** The Ollama branch with a client: once the adapter is reached, the
    session holds the id of this run, however the branch ends. *)
Lemma ollama_body_stores_run_id (run_tree : RunTree) (G : Globals) (c : Client)
    (model : string) (w : World) :
  model_provider G = "Ollama" → client G = Some c →
  environ w !! "OLLAMA_MODEL" = Some model →
  model ≠ "" → industry G ≠ "" → company_size G ≠ "" →
  session_state
    (snd (dispatch_body ChatOpenAI AzureOpenAI ChatGoogleGenerativeAI ChatMistralAI Ollama
            str_message run_tree G true w)) !! "run_id"
  = Some (PStr (str_uuid (run_tree_id run_tree))).
Proof.
  intros Hprov Hclient Hmod Hm Hi Hc.
  apply str_truthy_nonempty in Hm, Hi, Hc.
  unfold dispatch_body. rewrite Hprov. cbn [String.eqb Ascii.eqb Bool.eqb].
  unfold dispatch_ollama, store_scenario, show_previous_scenario,
    previous_scenario_generated.
  unfold_run. rewrite Hmod. simpl. rewrite Hm, Hi, Hc. simpl. rewrite ?Hmod.
  destruct (ollama_adapter_returns run_tree G (Some model) w) as (response & w' & Hrun).
  pose proof (ollama_run_id Ollama run_tree G _ _ _ _ Hrun) as Hid.
  unfold run_id_carried in Hid. rewrite Hclient in Hid. destruct Hid as [Hid _].
  rewrite Hrun. rewrite Hclient. simpl.
  destruct response as [response|]; simpl.
  - lookups. simpl. lookups. exact Hid.
  - destruct (session_state w' !! "custom_scenario_text") eqn:Htext; simpl;
      [| exact Hid].
    destruct (session_state w' !! "custom_scenario_generated") as [generated|]; simpl;
      [| exact Hid].
    destruct (truthy generated); simpl; repeat (rewrite Htext; simpl); exact Hid.
Qed.

(** The session entries the whole block leaves are those of its body. *)
Lemma generation_block_session (run_tree : RunTree) (G : Globals)
    (clicked thumbs_up thumbs_down : bool) (s : FeedbackState) :
  session_state
    (page_world (generation_block create_feedback ChatOpenAI AzureOpenAI
                   ChatGoogleGenerativeAI ChatMistralAI Ollama str_message run_tree G
                   clicked thumbs_up thumbs_down s)) =
  session_state
    (snd (dispatch_body ChatOpenAI AzureOpenAI ChatGoogleGenerativeAI ChatMistralAI Ollama
            str_message run_tree G clicked (page_world s))).
Proof.
  unfold generation_block.
  destruct (dispatch_body _ _ _ _ _ _ _ _ _ _) as [[e|[]] w1]; [reflexivity |].
  cbn [snd].
  destruct (feedback_section_page_world (client G) thumbs_up thumbs_down
              {| page_world := w1; session_feedback := session_feedback s;
                 feedback_placeholder := feedback_placeholder s;
                 feedback_calls := feedback_calls s |}) as (_ & Hs & _).
  exact Hs.
Qed.

(** No thumb, no call. *)
Lemma no_thumb_no_call (run_tree : RunTree) (G : Globals) (clicked : bool)
    (s : FeedbackState) :
  feedback_calls (generation_block create_feedback ChatOpenAI AzureOpenAI
                    ChatGoogleGenerativeAI ChatMistralAI Ollama str_message run_tree G
                    clicked false false s) = feedback_calls s.
Proof.
  unfold generation_block.
  destruct (dispatch_body _ _ _ _ _ _ _ _ _ _) as [[e|[]] w1]; [reflexivity |].
  unfold feedback_section. simpl. destruct (truthy _); [| reflexivity].
  destruct (client G); reflexivity.
Qed.

(** The call of the thumb up. *)
Lemma thumb_up_call (c : Client) (s : FeedbackState) :
  truthy (scenario_flag s) = true → truthy (stored_run_id s) = true →
  feedback_calls (feedback_section create_feedback (Some c) true false s) =
    feedback_calls s ++
      [{| feedback_run_id := stored_run_id s; feedback_key := "positive";
          feedback_score := 1; feedback_comment := "" |}].
Proof.
  unfold scenario_flag, stored_run_id. intros Hflag Hrun.
  unfold feedback_section, submit_feedback. simpl. rewrite Hflag. simpl. rewrite Hrun.
  match goal with
  | |- context [create_feedback ?a ?b ?c ?d ?e] => destruct (create_feedback a b c d e)
  end; simpl; same.
Qed.

(** X29. A thumb rates the latest invocation.  Take a run of the Ollama
    branch with a client in which Generate is clicked and the adapter is
    reached, and suppose the session is flagged afterwards (the generation
    succeeded, or it failed over a scenario stored earlier).  In the next
    run, where the thumb up is reported and Generate is not, no request
    goes to a backend and exactly one feedback call is made: it is
    "positive" with score 1 for the id of the first run's trace. *)
Theorem thumb_rates_latest_ollama_invocation
    (run_tree run_tree' : RunTree) (G G' : Globals) (c : Client) (model : string)
    (s : FeedbackState) :
  model_provider G = "Ollama" → client G = Some c → client G' = Some c →
  environ (page_world s) !! "OLLAMA_MODEL" = Some model →
  model ≠ "" → industry G ≠ "" → company_size G ≠ "" →
  let s1 := generation_block create_feedback ChatOpenAI AzureOpenAI ChatGoogleGenerativeAI
              ChatMistralAI Ollama str_message run_tree G true false false s in
  truthy (scenario_flag s1) = true →
  let s2 := generation_block create_feedback ChatOpenAI AzureOpenAI ChatGoogleGenerativeAI
              ChatMistralAI Ollama str_message run_tree' G' false true false s1 in
  requests (page_world s2) = requests (page_world s1) ∧
  feedback_calls s2 =
    feedback_calls s ++
      [{| feedback_run_id := PStr (str_uuid (run_tree_id run_tree));
          feedback_key := "positive"; feedback_score := 1; feedback_comment := "" |}].
Proof.
  intros Hprov Hclient Hclient' Hmod Hm Hi Hc s1 Hflag s2.
  assert (session_state (page_world s1) !! "run_id"
          = Some (PStr (str_uuid (run_tree_id run_tree)))) as Hid.
  { subst s1. rewrite generation_block_session.
    eapply ollama_body_stores_run_id; eassumption. }
  assert (feedback_calls s1 = feedback_calls s) as Hcalls
    by (subst s1; apply no_thumb_no_call).
  assert (is_Some (session_state (page_world s1) !! "custom_scenario_generated")) as Hhas.
  { unfold scenario_flag in Hflag.
    destruct (session_state (page_world s1) !! "custom_scenario_generated");
      [eexists; reflexivity | discriminate Hflag]. }
  destruct (unclicked_body_only_draws run_tree' G' (page_world s1) Hhas)
    as (w' & Hbody & Hsess & Hreq & _).
  clearbody s1. subst s2. unfold generation_block. rewrite Hbody, Hclient'.
  set (s1' := {| page_world := w'; session_feedback := session_feedback s1;
                 feedback_placeholder := feedback_placeholder s1;
                 feedback_calls := feedback_calls s1 |}).
  split.
  - destruct (feedback_section_page_world (Some c) true false s1') as (_ & _ & Hr & _).
    rewrite Hr. exact Hreq.
  - assert (stored_run_id s1' = PStr (str_uuid (run_tree_id run_tree))) as Hstored.
    { unfold stored_run_id, s1'. cbn [page_world]. now rewrite Hsess, Hid. }
    rewrite thumb_up_call.
    + rewrite Hstored. unfold s1'. cbn [feedback_calls]. now rewrite Hcalls.
    + unfold scenario_flag, s1'. cbn [page_world]. rewrite Hsess. exact Hflag.
    + rewrite Hstored. cbn [truthy].
      pose proof (str_uuid_nonempty (run_tree_id run_tree)) as Hne.
      apply String.eqb_neq in Hne. now rewrite Hne.
Qed.

End FeedbackFacts.

(** ** The properties on sample runs *)

Lemma empty_model_field_blocks_generation_witness :
  only_screen Cases.ollama_without_model
    (snd (dispatch_ollama Sample.Ollama Sample.run_tree (Sample.with_messages []) true
            Cases.ollama_without_model)).
Proof.
  apply (proj1 (proj2 (proj2 (proj2
           (empty_model_field_blocks_generation
              Sample.ChatOpenAI Sample.AzureOpenAI Sample.ChatGoogleGenerativeAI
              Sample.ChatMistralAI Sample.Ollama Sample.str_message Sample.run_tree
              (Sample.with_messages [])))))).
  reflexivity.
Defined.

Lemma missing_context_blocks_generation_witness :
  only_screen Sample.ollama_world
    (snd (dispatch Sample.ChatOpenAI Sample.AzureOpenAI Sample.ChatGoogleGenerativeAI
            Sample.ChatMistralAI Sample.Ollama Sample.str_message Sample.run_tree
            (Cases.namespace None "Ollama" "" (Some [])) true Sample.ollama_world)).
Proof.
  apply missing_context_blocks_generation. left. reflexivity.
Defined.


Lemma missing_environment_variable_is_reported_witness :
  screen (snd (dispatch Sample.ChatOpenAI Sample.AzureOpenAI Sample.ChatGoogleGenerativeAI
                 Sample.ChatMistralAI Sample.Ollama Sample.str_message Sample.run_tree
                 (Sample.with_messages []) true Sample.empty_world))
  = [UiError "An error occurred: 'OLLAMA_MODEL'"].
Proof.
  apply (proj2 (proj2 (proj2 (missing_environment_variable_is_reported
                                Sample.ChatOpenAI Sample.AzureOpenAI
                                Sample.ChatGoogleGenerativeAI Sample.ChatMistralAI
                                Sample.Ollama Sample.str_message Sample.run_tree
                                (Sample.with_messages []) Sample.empty_world)))
           eq_refl eq_refl).
Defined.

Lemma adapters_write_only_run_id_witness :
  session_state
    (snd (generate_scenario_wrapper Sample.ChatOpenAI Sample.run_tree
            (Sample.traced_with_messages []) (PStr "sk-test") (PStr "gpt-4") []
            Sample.after_success)) !! "custom_scenario_text"
  = Some (PStr "# Earlier scenario").
Proof.
  apply (proj1 (adapters_write_only_run_id
                  Sample.ChatOpenAI Sample.AzureOpenAI Sample.ChatGoogleGenerativeAI
                  Sample.ChatMistralAI Sample.Ollama Sample.str_message Sample.run_tree
                  (Sample.traced_with_messages []))
           (PStr "sk-test") (PStr "gpt-4") [] Sample.after_success "custom_scenario_text").
  discriminate.
Defined.


Lemma openai_success_stores_first_generation_witness :
  scenario_stored Sample.after_success
    (snd (dispatch_openai Cases.ChatOpenAI Sample.run_tree (Sample.with_messages []) true
            Sample.after_success))
    "# Scenario".
Proof.
  eapply (openai_success_stores_first_generation Cases.ChatOpenAI Sample.run_tree
            (Sample.with_messages []) Sample.after_success (PStr "gpt-4") [] _ _
            {| text := "# Scenario" |} [] []);
    first [ reflexivity | discriminate ].
Defined.

Lemma content_success_stores_answer_witness :
  scenario_stored Cases.google_world
    (snd (dispatch_google Cases.ChatGoogleGenerativeAI Sample.run_tree
            (Sample.with_messages []) true Cases.google_world))
    "# Scenario".
Proof.
  eapply (proj1 (content_success_stores_answer Cases.ChatGoogleGenerativeAI
                   Sample.ChatMistralAI Sample.run_tree (Sample.with_messages []))
            Cases.google_world "key" "gemini-pro" [] _ {| ai_content := "# Scenario" |});
    first [ reflexivity | discriminate ].
Defined.

Lemma ollama_success_stores_answer_witness :
  scenario_stored Sample.ollama_world
    (snd (dispatch_ollama Sample.Ollama Sample.run_tree (Sample.with_messages []) true
            Sample.ollama_world))
    "# Scenario".
Proof.
  eapply (ollama_success_stores_answer Sample.Ollama Sample.run_tree
            (Sample.with_messages []) Sample.ollama_world "llama3" [] _ "# Scenario");
    first [ reflexivity | discriminate ].
Defined.


Lemma empty_response_sets_flag_only_witness :
  flagged_without_text Sample.after_success
    (snd (dispatch Cases.ChatOpenAI_empty Sample.AzureOpenAI Sample.ChatGoogleGenerativeAI
            Sample.ChatMistralAI Sample.Ollama Sample.str_message Sample.run_tree
            (Cases.namespace None "OpenAI API" "Finance" (Some [])) true
            Sample.after_success)).
Proof.
  eapply (proj2 (empty_response_sets_flag_only Cases.ChatOpenAI_empty Sample.AzureOpenAI
                   Sample.ChatGoogleGenerativeAI Sample.ChatMistralAI Sample.Ollama
                   Sample.str_message Sample.run_tree
                   (Cases.namespace None "OpenAI API" "Finance" (Some [])))
            Sample.after_success (PStr "gpt-4") [] _ {| generations := [] |});
    try first [ reflexivity | discriminate ].
  left. reflexivity.
Defined.

Lemma build_messages_binds_iff_selected_witness :
  fst (build_messages [] "Phishing Attack" "Finance" "Large" Sample.empty_world)
  = inr None.
Proof.
  apply (proj1 (proj2 (build_messages_binds_iff_selected [] "Phishing Attack" "Finance"
                         "Large" Sample.empty_world))).
  reflexivity.
Defined.

Lemma rendered_prompt_converts_for_azure_witness :
  ∃ ms user_text,
    fst (build_messages ["Phishing (T1566)"] "" "Finance" "Large" Sample.empty_world)
      = inr (Some ms) ∧
    format_messages Sample.str_message ms [] =
      inr [ {| wire_role := "system"; wire_content := system_template |};
            {| wire_role := "user"; wire_content := user_text |} ].
Proof.
  apply rendered_prompt_converts_for_azure. discriminate.
Defined.

Lemma page_without_techniques_issues_no_request_witness :
  requests (snd (Sample.run_page None "Ollama" "Finance" "Large" Sample.catalog "" [] true
                   Sample.ollama_world)) = [].
Proof.
  apply (page_without_techniques_issues_no_request
           Sample.ChatOpenAI Sample.AzureOpenAI Sample.ChatGoogleGenerativeAI
           Sample.ChatMistralAI Sample.Ollama Sample.str_message Sample.run_tree
           None "Ollama" "Finance" "Large" Sample.catalog "" [] true Sample.ollama_world).
  reflexivity.
Defined.


Lemma failed_catalog_load_disables_generation_witness :
  fst (Sample.run_page None "Ollama" "Finance" "Large"
         (fst (load_techniques (inl (BackendError "No such file")))) "Phishing Attack" []
         true Sample.ollama_world) = inl (KeyError "Display Name").
Proof.
  apply (proj2 (proj2 (failed_catalog_load_disables_generation
                         Sample.ChatOpenAI Sample.AzureOpenAI Sample.ChatGoogleGenerativeAI
                         Sample.ChatMistralAI Sample.Ollama Sample.str_message
                         Sample.run_tree (BackendError "No such file")
                         None "Ollama" "Finance" "Large" "Phishing Attack" [] true
                         Sample.ollama_world))).
  eexists. reflexivity.
Defined.

Lemma load_techniques_rows_witness :
  technique_row Cases.phishing "T1566" ∈ fst (load_techniques (inr [Cases.phishing])).
Proof.
  apply (proj1 (load_techniques_rows [Cases.phishing])).
  exists Cases.phishing, (<["source_name" := "mitre-attack"]> (<["external_id" := "T1566"]> ∅)),
    "T1566".
  split; [left | split; [left | split; reflexivity]].
Defined.

Lemma multiselect_options_sorted_names_witness :
  ∃ options,
    multiselect_options Sample.catalog = inr options ∧
    Sorted str_le options ∧ NoDup options ∧
    ∀ name, name ∈ options ↔ name ∈ display_name <$> Sample.catalog.
Proof.
  apply multiselect_options_sorted_names. discriminate.
Defined.

Lemma template_defaults_are_options_witness :
  ∃ selected options,
    session_state (snd (template_selection Sample.catalog "Phishing Attack"
                          Sample.empty_world))
      !! "selected_techniques" = Some (PList selected) ∧
    multiselect_options Sample.catalog = inr options ∧
    selected ⊆ options.
Proof.
  eapply template_defaults_are_options; [discriminate | reflexivity].
Defined.



Lemma session_deployment_is_request_model_witness :
  requests (snd (generate_scenario_azure_wrapper Cases.AzureOpenAI Sample.str_message
                   Sample.run_tree (Sample.with_messages []) [] Cases.fresh_deployment))
  = [ReqAzure (Some "gpt-4o") []].
Proof.
  eapply (session_deployment_is_request_model Cases.AzureOpenAI Sample.str_message
            Sample.run_tree (Sample.with_messages []) Cases.stale_deployment
            Cases.fresh_deployment "gpt-4o" [] _ [] _);
    reflexivity.
Defined.


Lemma feedback_needs_client_scenario_and_run_id_witness :
  is_Some Sample.tracing ∧
  truthy (scenario_flag (Cases.at_start Cases.traced_scenario)) = true ∧
  truthy (stored_run_id (Cases.at_start Cases.traced_scenario)) = true ∧
  (true = true ∨ false = true).
Proof.
  apply (feedback_needs_client_scenario_and_run_id Cases.create_feedback).
  vm_compute. discriminate.
Defined.

Lemma thumb_submits_feedback_for_stored_run_witness :
  feedback_calls (feedback_section Cases.create_feedback Sample.tracing true false
                    (Cases.at_start Cases.traced_scenario))
  = [{| feedback_run_id := PStr "00000000-0000-0000-0000-0000000000ff";
        feedback_key := "positive"; feedback_score := 1; feedback_comment := "" |}].
Proof.
  apply (proj1 (thumb_submits_feedback_for_stored_run Cases.create_feedback
                  {| client_api_key := "ls-key" |} true
                  (Cases.at_start Cases.traced_scenario) eq_refl eq_refl)).
Defined.

Lemma thumb_without_run_id_warns_witness :
  feedback_placeholder (feedback_section Cases.create_feedback Sample.tracing true false
                          (Cases.at_start Cases.untraced_scenario))
  = PhWarning "No run ID found. Please generate a scenario first.".
Proof.
  apply (proj2 (proj2 (thumb_without_run_id_warns Cases.create_feedback
                         {| client_api_key := "ls-key" |} true false
                         (Cases.at_start Cases.untraced_scenario) eq_refl eq_refl
                         (or_introl eq_refl)))).
Defined.

Lemma thumb_rates_latest_ollama_invocation_witness :
  let run (run_tree : RunTree) (clicked thumbs_up : bool) :=
    generation_block Cases.create_feedback Sample.ChatOpenAI Sample.AzureOpenAI
      Sample.ChatGoogleGenerativeAI Sample.ChatMistralAI Sample.Ollama Sample.str_message
      run_tree (Sample.traced_with_messages []) clicked thumbs_up false in
  feedback_calls
    (run {| run_tree_id := {| uuid_int := 4096 |} |} false true
       (run Sample.run_tree true false (Cases.at_start Sample.ollama_world)))
  = [{| feedback_run_id := PStr (str_uuid (run_tree_id Sample.run_tree));
        feedback_key := "positive"; feedback_score := 1; feedback_comment := "" |}].
Proof.
  apply (proj2 (thumb_rates_latest_ollama_invocation
                  Sample.ChatOpenAI Sample.AzureOpenAI Sample.ChatGoogleGenerativeAI
                  Sample.ChatMistralAI Sample.Ollama Sample.str_message
                  Cases.create_feedback Sample.run_tree
                  {| run_tree_id := {| uuid_int := 4096 |} |}
                  (Sample.traced_with_messages []) (Sample.traced_with_messages [])
                  {| client_api_key := "ls-key" |} "llama3"
                  (Cases.at_start Sample.ollama_world)
                  eq_refl eq_refl eq_refl eq_refl
                  ltac:(discriminate) ltac:(discriminate) ltac:(discriminate) eq_refl)).
Defined.
